(** * Todo API (main.py): a shallow embedding and its properties

    The service maps five HTTP routes onto single-document operations of a
    MongoDB collection.  The embedding follows main.py function by function:
    Python values and exceptions, bson's ObjectId, the pymongo collection
    operations the handlers call, the handlers themselves, and the way
    FastAPI turns a handler's outcome into an HTTP response. *)

From Stdlib Require Import ZArith String Ascii List Lia Permutation Sorted.
From stdpp Require Import gmap strings pretty list fin_maps sorting.

Local Open Scope string_scope.
Local Open Scope Z_scope.

(** ** Python values and exceptions *)


(** bson.ObjectId: twelve bytes, kept as the lower-case hexadecimal text of
    the bytes, which is what [str] prints and what [<] compares. *)
Record ObjectId := mkOid { hex : string }.

(** The values this service stores in a document.  A datetime is held the
    way BSON holds it, as milliseconds since the epoch. *)
Inductive pyval :=
| VNone
| VBool (b : bool)
| VStr (s : string)
| VDate (ms : Z)
| VOid (o : ObjectId).

(** The two kinds of exception the handlers tell apart: FastAPI's
    HTTPException, and every other exception, kept with its [str(e)]. *)
Inductive exn :=
| HTTPException (status_code : Z) (detail : string)
| Exception (msg : string).

Inductive result (A : Type) :=
| Raise (e : exn)
| Return (a : A).
Arguments Raise {A} e.
Arguments Return {A} a.

#[export] Instance result_ret : MRet result := @Return.
#[export] Instance result_bind : MBind result := λ A B k r,
  match r with
  | Raise e => Raise e
  | Return a => k a
  end.
#[export] Instance result_fmap : FMap result := λ A B f r,
  match r with
  | Raise e => Raise e
  | Return a => Return (f a)
  end.

#[export] Instance ObjectId_eq_dec : EqDecision ObjectId.
Proof. solve_decision. Defined.
#[export] Instance pyval_eq_dec : EqDecision pyval.
Proof. solve_decision. Defined.

Module Py.

(** Decimal digits, zero padded: the last [width] digits of [n]. *)
Definition digit (n : Z) : ascii := ascii_of_N (Z.to_N (48 + n mod 10)).

Fixpoint zpad (width : nat) (n : Z) : string :=
  match width with
  | O => ""
  | S w => zpad w (n / 10) +:+ String (digit n) ""
  end.

(** Days since 1970-01-01 to the proleptic Gregorian (year, month, day). *)
Definition civil_from_days (days : Z) : Z * Z * Z :=
  let z := days + 719468 in
  let era := z / 146097 in
  let doe := z - era * 146097 in
  let yoe := (doe - doe / 1460 + doe / 36524 - doe / 146096) / 365 in
  let doy := doe - (365 * yoe + yoe / 4 - yoe / 100) in
  let mp := (5 * doy + 2) / 153 in
  let d := doy - (153 * mp + 2) / 5 + 1 in
  let m := if mp <? 10 then mp + 3 else mp - 9 in
  let y := yoe + era * 400 + (if m <=? 2 then 1 else 0) in
  (y, m, d).

(** [str] of a naive datetime: the microseconds are printed only when they
    are not zero. *)
Definition datetime_str (ms : Z) : string :=
  let '(y, m, d) := civil_from_days (ms / 86400000) in
  let r := ms mod 86400000 in
  let micro := (r mod 1000) * 1000 in
  zpad 4 y +:+ "-" +:+ zpad 2 m +:+ "-" +:+ zpad 2 d +:+ " " +:+
  zpad 2 (r / 3600000) +:+ ":" +:+ zpad 2 (r / 60000 mod 60) +:+ ":" +:+
  zpad 2 (r / 1000 mod 60) +:+
  (if micro =? 0 then "" else "." +:+ zpad 6 micro).

(** [str(v)] *)
Definition str (v : pyval) : string :=
  match v with
  | VNone => "None"
  | VBool true => "True"
  | VBool false => "False"
  | VStr s => s
  | VDate ms => datetime_str ms
  | VOid o => hex o
  end.

(** [bool(v)] *)
Definition bool (v : pyval) : Datatypes.bool :=
  match v with
  | VNone => false
  | VBool b => b
  | VStr s => negb (String.eqb s "")
  | VDate _ => true
  | VOid _ => true
  end.

(** [type(v).__name__], as it appears in a TypeError's text. *)
Definition type_name (v : pyval) : string :=
  match v with
  | VNone => "NoneType"
  | VBool _ => "bool"
  | VStr _ => "str"
  | VDate _ => "datetime.datetime"
  | VOid _ => "ObjectId"
  end.

(** [a < b]: defined between two values of one type, a TypeError
    otherwise; None is ordered against nothing, itself included. *)
Definition lt (a b : pyval) : result Datatypes.bool :=
  match a, b with
  | VBool x, VBool y => Return (negb x && y)
  | VStr x, VStr y => Return (String.ltb x y)
  | VDate x, VDate y => Return (x <? y)
  | VOid x, VOid y => Return (String.ltb (hex x) (hex y))
  | _, _ =>
      Raise (Exception ("'<' not supported between instances of '" +:+
                        type_name a +:+ "' and '" +:+ type_name b +:+ "'"))
  end.

(** [str(e)]; Starlette prints an HTTPException as "status: detail". *)
Definition str_exn (e : exn) : string :=
  match e with
  | HTTPException c d => pretty c +:+ ": " +:+ d
  | Exception msg => msg
  end.

(** [s[:n]] *)
Fixpoint str_take (n : nat) (s : string) : string :=
  match n, s with
  | S n', String c s' => String c (str_take n' s')
  | _, _ => ""
  end.

(** [list.sort(key=..., reverse=...)].  The sort is stable and compares
    keys with [<] only; a comparison that raises aborts the sort.  With
    [reverse] the list is reversed, sorted upwards and reversed again, which
    keeps equal keys in their original order.  [insort] puts [x] behind
    every element that is not greater, as the insertion pass of CPython's
    sort does. *)
Fixpoint insort {A} (key : A → pyval) (x : A) (l : list A) : result (list A) :=
  match l with
  | [] => Return [x]
  | y :: l' =>
      b ← lt (key x) (key y);
      if b : Datatypes.bool then Return (x :: y :: l') else cons y <$> insort key x l'
  end.

Fixpoint insort_all {A} (key : A → pyval) (acc : list A) (l : list A)
  : result (list A) :=
  match l with
  | [] => Return acc
  | x :: l' => acc' ← insort key x acc; insort_all key acc' l'
  end.

Definition list_sort {A} (key : A → pyval) (reverse : Datatypes.bool) (l : list A)
  : result (list A) :=
  sorted ← insort_all key [] (if reverse then rev l else l);
  Return (if reverse then rev sorted else sorted).

(** [d.get(k)] and [d.get(k, default)] on a dict with string keys. *)
Definition dict_get (d : gmap string pyval) (k : string) : pyval :=
  default VNone (d !! k).

Definition dict_get_default (d : gmap string pyval) (k : string) (dflt : pyval)
  : pyval :=
  default dflt (d !! k).

End Py.

(** ** bson: parsing an ObjectId *)

Module Bson.

(** The characters [bytes.fromhex] skips between two bytes. *)
Definition is_space (c : ascii) : bool :=
  let n := N_of_ascii c in
  ((n =? 32) || ((9 <=? n) && (n <=? 13)))%N.

(** A hexadecimal digit, in lower case. *)
Definition hex_digit (c : ascii) : option ascii :=
  let n := N_of_ascii c in
  (if (48 <=? n) && (n <=? 57) then Some c
   else if (97 <=? n) && (n <=? 102) then Some c
   else if (65 <=? n) && (n <=? 70) then Some (ascii_of_N (n + 32))
   else None)%N.

(** [bytes.fromhex(s)], the bytes printed in hexadecimal: two digits per
    byte, white space allowed in front of a byte only. *)
Fixpoint fromhex (s : string) : option string :=
  match s with
  | EmptyString => Some EmptyString
  | String c s' =>
      if is_space c then fromhex s'
      else
        match hex_digit c, s' with
        | Some h, String c' s'' =>
            match hex_digit c' with
            | Some l => String h <$> (String l <$> fromhex s'')
            | None => None
            end
        | _, _ => None
        end
  end.

(** [ObjectId(s)] for a str: the text must have 24 characters and go
    through [bytes.fromhex]; anything else raises InvalidId.  A text with a
    character outside ASCII is refused by Python and here alike: there by
    [fromhex], here by the length in bytes or by [fromhex]. *)
Definition ObjectId_of_str (s : string) : result ObjectId :=
  let invalid :=
    Raise (Exception ("'" +:+ s +:+ "' is not a valid ObjectId, it must be " +:+
                      "a 12-byte input or a 24-character hex string")) in
  if (String.length s =? 24)%nat then
    match fromhex s with
    | Some h => Return (mkOid h)
    | None => invalid
    end
  else invalid.

End Bson.

(** ** The document store, as pymongo shows it to the handlers *)

Abbreviation doc := (gmap string pyval).

Module Mongo.

(** The server is unreachable (every call raises, with the driver's text)
    or holds its collections, in creation order; a collection holds its
    documents in insertion order. *)
Inductive server :=
| Down (err : string)
| Up (colls : list (string * list doc)).

(** What the global [db] refers to when it is not None; [name] is None for
    a handle without such an attribute. *)
Record Database := { name : option string; srv : server }.

Fixpoint get_collection (c : string) (colls : list (string * list doc))
  : list doc :=
  match colls with
  | [] => []
  | (k, docs) :: colls' =>
      if String.eqb k c then docs else get_collection c colls'
  end.

Fixpoint has_collection (c : string) (colls : list (string * list doc)) : bool :=
  match colls with
  | [] => false
  | (k, _) :: colls' => String.eqb k c || has_collection c colls'
  end.

(** Replace the documents of [c], if the collection exists. *)
Fixpoint set_collection (c : string) (docs : list doc)
  (colls : list (string * list doc)) : list (string * list doc) :=
  match colls with
  | [] => []
  | (k, old) :: colls' =>
      if String.eqb k c then (k, docs) :: colls'
      else (k, old) :: set_collection c docs colls'
  end.

(** The filter [{"_id": oid}]. *)
Definition matches_id (oid : ObjectId) (d : doc) : bool :=
  bool_decide (d !! "_id" = Some (VOid oid)).

Fixpoint find_first (oid : ObjectId) (docs : list doc) : option doc :=
  match docs with
  | [] => None
  | d :: docs' => if matches_id oid d then Some d else find_first oid docs'
  end.

(** [$set] on the first match: the given fields overwrite or extend the
    document, its other fields stay.  None when nothing matched. *)
Fixpoint update_first (oid : ObjectId) (fields : doc) (docs : list doc)
  : option (list doc) :=
  match docs with
  | [] => None
  | d :: docs' =>
      if matches_id oid d then Some ((fields ∪ d) :: docs')
      else cons d <$> update_first oid fields docs'
  end.

Fixpoint delete_first (oid : ObjectId) (docs : list doc) : option (list doc) :=
  match docs with
  | [] => None
  | d :: docs' =>
      if matches_id oid d then Some docs'
      else cons d <$> delete_first oid docs'
  end.

End Mongo.

(** ** Handlers run against the global [db]: state and exceptions *)

Definition M (A : Type) : Type :=
  option Mongo.Database → result A * option Mongo.Database.

#[export] Instance M_ret : MRet M := λ A a db, (Return a, db).
#[export] Instance M_bind : MBind M := λ A B k m db,
  match m db with
  | (Raise e, db') => (Raise e, db')
  | (Return a, db') => k a db'
  end.

Definition raise {A} (e : exn) : M A := λ db, (Raise e, db).

Definition lift {A} (r : result A) : M A := λ db, (r, db).

(** [try: m except Exception as e: h e] *)
Definition try_except {A} (m : M A) (h : exn → M A) : M A := λ db,
  match m db with
  | (Raise e, db') => h e db'
  | (Return a, db') => (Return a, db')
  end.

(** A call on [db[...]] or on [db]: a TypeError or AttributeError when [db]
    is None, the driver's error when the server is down, and otherwise [f]
    on the collections. *)
Definition on_server {A} (none_msg : string)
  (f : list (string * list doc) → result A * list (string * list doc)) : M A :=
  λ db,
  match db with
  | None => (Raise (Exception none_msg), db)
  | Some d =>
      match Mongo.srv d with
      | Mongo.Down err => (Raise (Exception err), db)
      | Mongo.Up colls =>
          let '(r, colls') := f colls in
          (r, Some {| Mongo.name := Mongo.name d; Mongo.srv := Mongo.Up colls' |})
      end
  end.

Definition not_subscriptable : string := "'NoneType' object is not subscriptable".

(** [db[c].find_one({"_id": oid})] *)
Definition find_one (c : string) (oid : ObjectId) : M (option doc) :=
  on_server not_subscriptable
    (λ colls, (Return (Mongo.find_first oid (Mongo.get_collection c colls)), colls)).

(** [db[c].update_one({"_id": oid}, {"$set": fields}).matched_count] *)
Definition update_one (c : string) (oid : ObjectId) (fields : doc) : M Z :=
  on_server not_subscriptable
    (λ colls,
       match Mongo.update_first oid fields (Mongo.get_collection c colls) with
       | Some docs' => (Return 1, Mongo.set_collection c docs' colls)
       | None => (Return 0, colls)
       end).

(** [db[c].delete_one({"_id": oid}).deleted_count] *)
Definition delete_one (c : string) (oid : ObjectId) : M Z :=
  on_server not_subscriptable
    (λ colls,
       match Mongo.delete_first oid (Mongo.get_collection c colls) with
       | Some docs' => (Return 1, Mongo.set_collection c docs' colls)
       | None => (Return 0, colls)
       end).

(** [list(db[c].find({}))] *)
Definition find_all (c : string) : M (list doc) :=
  on_server not_subscriptable
    (λ colls, (Return (Mongo.get_collection c colls), colls)).

(** [db[c].insert_one(d).inserted_id].  A document without [_id] gets
    [new_id], the ObjectId the driver generates for this call; an [_id]
    that is already in the collection is a duplicate key error; the
    collection is created by its first insert. *)
Definition insert_one (new_id : ObjectId) (c : string) (d : doc) : M pyval :=
  on_server not_subscriptable
    (λ colls,
       let d := match d !! "_id" with
                | Some _ => d
                | None => <["_id" := VOid new_id]> d
                end in
       let id := Py.dict_get d "_id" in
       let docs := Mongo.get_collection c colls in
       if existsb (λ d', bool_decide (d' !! "_id" = Some id)) docs then
         (Raise (Exception ("E11000 duplicate key error collection: " +:+ c)), colls)
       else if Mongo.has_collection c colls then
         (Return id, Mongo.set_collection c (docs ++ [d])%list colls)
       else (Return id, (colls ++ [(c, [d])])%list)).

(** [db.list_collection_names()] *)
Definition list_collection_names : M (list string) :=
  on_server "'NoneType' object has no attribute 'list_collection_names'"
    (λ colls, (Return (fst <$> colls), colls)).

(** ** Request and response models *)

(** schemas.Todo.
    Modelled from the spec: schemas.py is not among the sources.  Section 3
    and 4.1(3): a Todo has a title and a completion flag that "defaults to
    false at creation"; "no further validation is performed". *)
Module Todo.
Record t := { title : string; completed : bool }.
(** [Todo(title=...)] *)
Definition new (title : string) : t := {| title := title; completed := false |}.
Definition model_dump (x : t) : doc :=
  {[ "title" := VStr (title x); "completed" := VBool (completed x) ]}.
End Todo.

(** [class TodoCreate(BaseModel): title: str] *)
Module TodoCreate.
Record t := { title : string }.
End TodoCreate.

(** A field of a pydantic model whose default is None: left out of the
    request, or supplied, as null or with a value. *)
Inductive supplied (A : Type) :=
| Unset
| Supplied (v : option A).
Arguments Unset {A}.
Arguments Supplied {A} v.

(** [class TodoUpdate(BaseModel)] *)
Module TodoUpdate.
Record t := { title : supplied string; completed : supplied bool }.

Definition dump_field {A} (inj : A → pyval) (k : string) (f : supplied A) : doc :=
  match f with
  | Unset => ∅
  | Supplied None => {[ k := VNone ]}
  | Supplied (Some v) => {[ k := inj v ]}
  end.

(** [payload.model_dump(exclude_unset=True)] *)
Definition model_dump_exclude_unset (p : t) : doc :=
  dump_field VStr "title" (title p) ∪ dump_field VBool "completed" (completed p).
End TodoUpdate.

(** The dict [serialize_todo] builds, one field per key. *)
Record todo_json := {
  id : string;
  title : pyval;
  completed : bool;
  created_at : pyval;
  updated_at : pyval
}.

(** The dict [test_database] builds, one field per key. *)
Record diagnostics := {
  backend : string;
  database : string;
  database_url : option string;
  database_name : option string;
  connection_status : string;
  collections : list string
}.

Definition set_database (v : string) (r : diagnostics) : diagnostics :=
  {| backend := backend r; database := v; database_url := database_url r;
     database_name := database_name r; connection_status := connection_status r;
     collections := collections r |}.
Definition set_database_url (v : option string) (r : diagnostics) : diagnostics :=
  {| backend := backend r; database := database r; database_url := v;
     database_name := database_name r; connection_status := connection_status r;
     collections := collections r |}.
Definition set_database_name (v : option string) (r : diagnostics) : diagnostics :=
  {| backend := backend r; database := database r; database_url := database_url r;
     database_name := v; connection_status := connection_status r;
     collections := collections r |}.
Definition set_connection_status (v : string) (r : diagnostics) : diagnostics :=
  {| backend := backend r; database := database r; database_url := database_url r;
     database_name := database_name r; connection_status := v;
     collections := collections r |}.
Definition set_collections (v : list string) (r : diagnostics) : diagnostics :=
  {| backend := backend r; database := database r; database_url := database_url r;
     database_name := database_name r; connection_status := connection_status r;
     collections := v |}.

(** ** database.py: the adapter the handlers import *)

(** [get_documents(collection_name, {}, limit=None)].
    Modelled from the spec: database.py is not among the sources.  Section
    2: "find(collection, filter, limit) -> list of documents"; the handler
    passes the empty filter and no limit, so every document is returned. *)
Definition get_documents (collection_name : string) : M (list doc) :=
  find_all collection_name.

(** [create_document(collection_name, data)].
    Modelled from the spec: database.py is not among the sources.  Section
    2: "insert(collection, document) -> id"; section 3: the store assigns
    [id] and [created_at]; section 4.1(3): the new Todo has "no
    updated_at".  [now] is the clock at the call and [new_id] the
    identifier generated for it; the id is returned as text, which the
    handler parses again. *)
Definition create_document (now : Z) (new_id : ObjectId)
  (collection_name : string) (data : Todo.t) : M string :=
  let data_dict := <["created_at" := VDate now]> (Todo.model_dump data) in
  inserted_id ← insert_one new_id collection_name data_dict;
  mret (Py.str inserted_id).

(** ** FastAPI: from a handler's outcome to the HTTP response *)

Module FastAPI.

(** The bodies this application sends. *)
Inductive content :=
| JTodo (t : todo_json)
| JTodos (l : list todo_json)
| JMessage (message : string)
| JOk (ok : bool)
| JDiagnostics (d : diagnostics)
| JDetail (detail : string)
| PlainText (s : string).

Record Response := { status : Z; body : option content }.

(** Status codes that carry no body: FastAPI empties the body of a route
    declared with one of them, whatever the handler returns. *)
Definition is_body_allowed_for_status_code (status_code : Z) : bool :=
  negb ((status_code <? 200) || (status_code =? 204) || (status_code =? 205)
        || (status_code =? 304)).

(** A route declared with [status_code]: the handler's return value is the
    body when that code allows one; an HTTPException becomes a response
    with its status and [{"detail": ...}]; any other exception is the
    server's plain 500. *)
Definition respond {A} (status_code : Z) (to_json : A → content) (r : result A)
  : Response :=
  match r with
  | Return a =>
      {| status := status_code;
         body := if is_body_allowed_for_status_code status_code
                 then Some (to_json a) else None |}
  | Raise (HTTPException c d) =>
      {| status := c;
         body := if is_body_allowed_for_status_code c
                 then Some (JDetail d) else None |}
  | Raise (Exception _) =>
      {| status := 500; body := Some (PlainText "Internal Server Error") |}
  end.

Definition route {A} (status_code : Z) (to_json : A → content) (handler : M A)
  : option Mongo.Database → Response * option Mongo.Database :=
  λ db, let '(r, db') := handler db in (respond status_code to_json r, db').

End FastAPI.

(** ** main.py *)

(** Python's str is embedded as a Rocq string: the literals below are the
    source's, in UTF-8, and the text of an exception counts one character
    for each of its code points. *)

Definition serialize_todo (d : doc) : todo_json :=
  {| id := Py.str (Py.dict_get d "_id");
     title := Py.dict_get_default d "title" (VStr "");
     completed := Py.bool (Py.dict_get_default d "completed" (VBool false));
     created_at := Py.dict_get d "created_at";
     updated_at := Py.dict_get d "updated_at" |}.

(** [serialize_todo(doc)] on what [find_one] returned: None has no
    [get]. *)
Definition serialize_found (found : option doc) : M todo_json :=
  match found with
  | Some d => mret (serialize_todo d)
  | None => raise (Exception "'NoneType' object has no attribute 'get'")
  end.

Definition read_root : M string := mret "Todo API is running".

Definition list_todos : M (list todo_json) :=
  try_except
    (docs ← get_documents "todo";
     docs ← lift (Py.list_sort (λ d, Py.dict_get d "created_at") true docs);
     mret (serialize_todo <$> docs))
    (λ e, raise (HTTPException 500 (Py.str_exn e))).

Definition create_todo (now : Z) (new_id : ObjectId) (payload : TodoCreate.t)
  : M todo_json :=
  try_except
    (let todo := Todo.new (TodoCreate.title payload) in
     inserted_id ← create_document now new_id "todo" todo;
     oid ← lift (Bson.ObjectId_of_str inserted_id);
     found ← find_one "todo" oid;
     serialize_found found)
    (λ e, raise (HTTPException 500 (Py.str_exn e))).

(** The fields [update_todo] sends to the store before it stamps
    [updated_at]: those supplied in the request and not None. *)
Definition update_fields (payload : TodoUpdate.t) : doc :=
  filter (λ kv, kv.2 ≠ VNone) (TodoUpdate.model_dump_exclude_unset payload).

(** The [try]/[except] around [ObjectId(todo_id)] that [update_todo] and
    [delete_todo] both open with. *)
Definition parse_id (todo_id : string) : M ObjectId :=
  try_except (lift (Bson.ObjectId_of_str todo_id))
             (λ _, raise (HTTPException 400 "Invalid ID")).

Definition update_todo (now : Z) (todo_id : string) (payload : TodoUpdate.t)
  : M todo_json :=
  oid ← parse_id todo_id;
  let fields := update_fields payload in
  if decide (fields = ∅) then raise (HTTPException 400 "No fields to update")
  else
    let fields := <["updated_at" := VDate now]> fields in
    matched_count ← update_one "todo" oid fields;
    if matched_count =? 0 then raise (HTTPException 404 "Todo not found")
    else
      found ← find_one "todo" oid;
      serialize_found found.

Definition delete_todo (todo_id : string) : M bool :=
  oid ← parse_id todo_id;
  deleted_count ← delete_one "todo" oid;
  if deleted_count =? 0 then raise (HTTPException 404 "Todo not found")
  else mret true.

(** [os.getenv(k)] is truthy: the variable is set and not empty. *)
Definition getenv_truthy (env : gmap string string) (k : string) : bool :=
  match env !! k with
  | Some v => negb (String.eqb v "")
  | None => false
  end.

(** In the outer [try], only the call inside the inner [try] can raise:
    [db] is compared with None before an attribute of it is read.  The
    outer handler therefore sees the response as it was on entry. *)
Definition test_database (env : gmap string string) : M diagnostics :=
  let response :=
    {| backend := "✅ Running";
       database := "❌ Not Available";
       database_url := None;
       database_name := None;
       connection_status := "Not Connected";
       collections := [] |} in
  response ←
    try_except
      (λ db,
         match db with
         | Some d =>
             let response := set_database "✅ Available" response in
             let response := set_database_url (Some "✅ Configured") response in
             let response :=
               set_database_name
                 (Some (default "✅ Connected" (Mongo.name d))) response in
             let response := set_connection_status "Connected" response in
             try_except
               (names ← list_collection_names;
                let response := set_collections (take 10 names) response in
                mret (set_database "✅ Connected & Working" response))
               (λ e,
                  mret (set_database
                          ("⚠️  Connected but Error: " +:+
                           Py.str_take 50 (Py.str_exn e)) response))
               db
         | None =>
             (Return (set_database "⚠️  Available but not initialized" response),
              db)
         end)
      (λ e,
         mret (set_database ("❌ Error: " +:+ Py.str_take 50 (Py.str_exn e))
                 response));
  let response :=
    set_database_url
      (Some (if getenv_truthy env "DATABASE_URL" then "✅ Set" else "❌ Not Set"))
      response in
  let response :=
    set_database_name
      (Some (if getenv_truthy env "DATABASE_NAME" then "✅ Set" else "❌ Not Set"))
      response in
  mret response.

(** The routes, with the status code each decorator declares. *)
Definition GET_root := FastAPI.route 200 FastAPI.JMessage read_root.
Definition GET_todos := FastAPI.route 200 FastAPI.JTodos list_todos.
Definition POST_todos (now : Z) (new_id : ObjectId) (payload : TodoCreate.t) :=
  FastAPI.route 201 FastAPI.JTodo (create_todo now new_id payload).
Definition PATCH_todo (now : Z) (todo_id : string) (payload : TodoUpdate.t) :=
  FastAPI.route 200 FastAPI.JTodo (update_todo now todo_id payload).
Definition DELETE_todo (todo_id : string) :=
  FastAPI.route 204 FastAPI.JOk (delete_todo todo_id).
Definition GET_test (env : gmap string string) :=
  FastAPI.route 200 FastAPI.JDiagnostics (test_database env).

(** The documents of a collection, when the store can be reached. *)
Definition documents (c : string) (db : option Mongo.Database) : option (list doc) :=
  match db with
  | Some {| Mongo.srv := Mongo.Up colls |} => Some (Mongo.get_collection c colls)
  | _ => None
  end.

Definition todos : option Mongo.Database → option (list doc) := documents "todo".

(** A field of an update request carries a value: it is supplied and not
    null. *)
Definition carries_value {A} (f : supplied A) : bool :=
  match f with
  | Supplied (Some _) => true
  | _ => false
  end.

(** The effective field set of an update request is empty: the body is
    [{}] or every supplied field is null. *)
Definition nothing_to_update (p : TodoUpdate.t) : Prop :=
  carries_value (TodoUpdate.title p) = false ∧
  carries_value (TodoUpdate.completed p) = false.

(** An ObjectId as the driver generates and prints it: its text reads back
    as itself. *)
Definition well_formed (o : ObjectId) : Prop :=
  Bson.ObjectId_of_str (hex o) = Return o.

(** The responses of the error paths. *)
Definition bad_request (detail : string) : FastAPI.Response :=
  {| FastAPI.status := 400; FastAPI.body := Some (FastAPI.JDetail detail) |}.

Definition not_found (detail : string) : FastAPI.Response :=
  {| FastAPI.status := 404; FastAPI.body := Some (FastAPI.JDetail detail) |}.

Definition no_content : FastAPI.Response :=
  {| FastAPI.status := 204; FastAPI.body := None |}.

(** The serialization contract, in the words of the specification: [id] is
    the string form of the identifier, [title] the stored title or the
    empty string if absent, [completed] the stored flag or false if absent,
    [created_at] and [updated_at] are passed through, null when absent. *)
Definition serialization_contract (d : doc) (t : todo_json) : Prop :=
  id t = Py.str (default VNone (d !! "_id")) ∧
  (∀ o, d !! "_id" = Some (VOid o) → id t = hex o) ∧
  title t = default (VStr "") (d !! "title") ∧
  (∀ b, d !! "completed" = Some (VBool b) → completed t = b) ∧
  (d !! "completed" = None → completed t = false) ∧
  created_at t = default VNone (d !! "created_at") ∧
  updated_at t = default VNone (d !! "updated_at").

(** Sample data of the examples. *)
Definition id1 : ObjectId := mkOid "65f0a1b2c3d4e5f601234501".
Definition id2 : ObjectId := mkOid "65f0a1b2c3d4e5f601234502".

Definition milk : doc :=
  {[ "_id" := VOid id1; "title" := VStr "Buy milk"; "completed" := VBool false;
     "created_at" := VDate 1700000000000 ]}.

(** A document written without [created_at]. *)
Definition undated : doc :=
  {[ "_id" := VOid id2; "title" := VStr "Call home"; "completed" := VBool false ]}.

Definition store_of (docs : list doc) : option Mongo.Database :=
  Some {| Mongo.name := Some "app"; Mongo.srv := Mongo.Up [("todo", docs)] |}.

Definition no_changes : TodoUpdate.t :=
  {| TodoUpdate.title := Unset; TodoUpdate.completed := Unset |}.

Definition complete_it : TodoUpdate.t :=
  {| TodoUpdate.title := Unset; TodoUpdate.completed := Supplied (Some true) |}.

(** The frame of an update, in the words of the specification: the document
    with the given identifier goes from [d] to [d'], every other document
    and collection stays; [d'] differs from [d] in [updated_at] and in the
    fields the request carries a value for, and in nothing else; the
    response [t] is [d'] serialized. *)
Definition updated_only_supplied (now : Z) (todo_id : string)
  (payload : TodoUpdate.t) (db db' : option Mongo.Database) (t : todo_json) : Prop :=
  ∃ oid before d after d',
    Bson.ObjectId_of_str todo_id = Return oid ∧
    todos db = Some (before ++ d :: after)%list ∧
    Mongo.find_first oid (before ++ d :: after) = Some d ∧
    todos db' = Some (before ++ d' :: after)%list ∧
    (∀ c, c ≠ "todo" → documents c db' = documents c db) ∧
    t = serialize_todo d' ∧
    d' !! "updated_at" = Some (VDate now) ∧
    (∀ v, TodoUpdate.title payload = Supplied (Some v) → d' !! "title" = Some (VStr v)) ∧
    (∀ v, TodoUpdate.completed payload = Supplied (Some v) →
          d' !! "completed" = Some (VBool v)) ∧
    (∀ k, k ≠ "updated_at" →
          (k = "title" → carries_value (TodoUpdate.title payload) = false) →
          (k = "completed" → carries_value (TodoUpdate.completed payload) = false) →
          d' !! k = d !! k) ∧
    id t = id (serialize_todo d) ∧
    created_at t = created_at (serialize_todo d) ∧
    (carries_value (TodoUpdate.title payload) = false →
     title t = title (serialize_todo d)) ∧
    (carries_value (TodoUpdate.completed payload) = false →
     completed t = completed (serialize_todo d)).

(** The document a create request persists, in the words of the
    specification: the given title, [completed = false], the identifier and
    the [created_at] the store assigned, and no [updated_at]. *)
Definition new_todo_doc (now : Z) (new_id : ObjectId) (title : string) : doc :=
  {[ "_id" := VOid new_id; "title" := VStr title; "completed" := VBool false;
     "created_at" := VDate now ]}.

Definition created (t : todo_json) : FastAPI.Response :=
  {| FastAPI.status := 201; FastAPI.body := Some (FastAPI.JTodo t) |}.




Definition internal_error (detail : string) : FastAPI.Response :=
  {| FastAPI.status := 500; FastAPI.body := Some (FastAPI.JDetail detail) |}.

Definition ok_todos (l : list todo_json) : FastAPI.Response :=
  {| FastAPI.status := 200; FastAPI.body := Some (FastAPI.JTodos l) |}.

(** A returned todo stands for a document of the collection and meets the
    serialization contract for it. *)
Definition returned_from (db : option Mongo.Database) (t : todo_json) : Prop :=
  ∃ docs d, todos db = Some docs ∧ d ∈ docs ∧ serialization_contract d t.

(** What the server sends for an exception no handler caught. *)
Definition server_error : FastAPI.Response :=
  {| FastAPI.status := 500;
     FastAPI.body := Some (FastAPI.PlainText "Internal Server Error") |}.


(** No two documents of a collection have the same [_id]: the unique index
    every MongoDB collection has. *)
Definition unique_ids (docs : list doc) : Prop :=
  NoDup ((λ d : doc, d !! "_id") <$> docs).

(** A handler keeps the todo collection reachable and its identifiers
    unique, whatever it returns or raises. *)
Definition keeps_unique_ids {A} (handler : M A) : Prop :=
  ∀ db docs r db',
    todos db = Some docs → unique_ids docs → handler db = (r, db') →
    ∃ docs', todos db' = Some docs' ∧ unique_ids docs'.

(** The keys [serialize_todo] reads. *)
Definition serialized_keys : list string :=
  ["_id"; "title"; "completed"; "created_at"; "updated_at"].

(** More sample data: a document with a field of its own, and two
    documents created at the same instant. *)
Definition id3 : ObjectId := mkOid "65f0a1b2c3d4e5f601234503".

Definition tagged : doc := <["owner" := VStr "ann"]> milk.

Definition bread : doc :=
  {[ "_id" := VOid id3; "title" := VStr "Buy bread"; "completed" := VBool false;
     "created_at" := VDate 1700000000000 ]}.

Definition down (err : string) : option Mongo.Database :=
  Some {| Mongo.name := Some "app"; Mongo.srv := Mongo.Down err |}.

(** * Properties *)

(** ** The embedding at work *)

Example datetime_str_epoch : Py.datetime_str 0 = "1970-01-01 00:00:00".
Proof. reflexivity. Qed.

Example datetime_str_millis :
  Py.datetime_str 1700000000123 = "2023-11-14 22:13:20.123000".
Proof. reflexivity. Qed.

Example datetime_str_leap_day :
  Py.datetime_str 951782400000 = "2000-02-29 00:00:00".
Proof. reflexivity. Qed.

Example ObjectId_upper_case :
  Bson.ObjectId_of_str "65F0A1B2C3D4E5F601234501" = Return id1.
Proof. reflexivity. Qed.

Example ObjectId_too_short :
  ∃ e, Bson.ObjectId_of_str "65f0a1b2c3d4e5f60123450" = Raise e.
Proof. by eexists. Qed.

Example ObjectId_not_hex :
  ∃ e, Bson.ObjectId_of_str "65f0a1b2c3d4e5f60123450g" = Raise e.
Proof. by eexists. Qed.

Example well_formed_id1 : well_formed id1.
Proof. reflexivity. Qed.

(** Three todos created one after the other are listed C, B, A. *)
Example list_todos_newest_first :
  fst (list_todos
         (store_of
            [new_todo_doc 1 id1 "A"; new_todo_doc 2 id2 "B";
             new_todo_doc 3 (mkOid "65f0a1b2c3d4e5f601234503") "C"]))
  = Return
      [serialize_todo (new_todo_doc 3 (mkOid "65f0a1b2c3d4e5f601234503") "C");
       serialize_todo (new_todo_doc 2 id2 "B");
       serialize_todo (new_todo_doc 1 id1 "A")].
Proof. reflexivity. Qed.

(** A single document is listed whether it has a [created_at] or not:
    nothing is compared. *)
Example list_todos_single_undated :
  GET_todos (store_of [undated]) = (ok_todos [serialize_todo undated], store_of [undated]).
Proof. reflexivity. Qed.

Example test_database_server_down :
  fst (test_database ∅
         (Some {| Mongo.name := Some "app";
                  Mongo.srv := Mongo.Down "localhost:27017: connection refused" |}))
  = Return {| backend := "✅ Running";
              database := "⚠️  Connected but Error: localhost:27017: connection refused";
              database_url := Some "❌ Not Set";
              database_name := Some "❌ Not Set";
              connection_status := "Connected";
              collections := [] |}.
Proof. reflexivity. Qed.

(** ** Evaluation of the handler monad *)

Lemma bind_Return {A B} (m : M A) (k : A → M B) db a db' :
  m db = (Return a, db') → (m ≫= k) db = k a db'.
Proof. intros H. unfold mbind, M_bind. by rewrite H. Qed.

Lemma bind_Raise {A B} (m : M A) (k : A → M B) db e db' :
  m db = (Raise e, db') → (m ≫= k) db = (Raise e, db').
Proof. intros H. unfold mbind, M_bind. by rewrite H. Qed.

Lemma parse_id_Return todo_id oid db :
  Bson.ObjectId_of_str todo_id = Return oid →
  parse_id todo_id db = (Return oid, db).
Proof. intros H. unfold parse_id, try_except, lift. by rewrite H. Qed.

Lemma parse_id_Raise todo_id e db :
  Bson.ObjectId_of_str todo_id = Raise e →
  parse_id todo_id db = (Raise (HTTPException 400 "Invalid ID"), db).
Proof. intros H. unfold parse_id, try_except, lift, raise. by rewrite H. Qed.

(** ** The effective field set of an update *)

Lemma update_fields_empty p :
  nothing_to_update p → update_fields p = ∅.
Proof.
  destruct p as [[|[t|]] [|[c|]]]; intros [Ht Hc]; simpl in *;
    try discriminate; by vm_compute.
Qed.

Lemma update_fields_title p t :
  TodoUpdate.title p = Supplied (Some t) →
  update_fields p !! "title" = Some (VStr t).
Proof.
  intros H. unfold update_fields, TodoUpdate.model_dump_exclude_unset.
  rewrite H. simpl. apply map_lookup_filter_Some. split; [|done].
  apply lookup_union_Some_l, lookup_singleton_eq.
Qed.

Lemma update_fields_completed p c :
  TodoUpdate.completed p = Supplied (Some c) →
  update_fields p !! "completed" = Some (VBool c).
Proof.
  intros H. unfold update_fields, TodoUpdate.model_dump_exclude_unset.
  rewrite H. simpl. apply map_lookup_filter_Some. split; [|done].
  destruct (TodoUpdate.title p) as [|[t|]]; simpl.
  - rewrite (left_id_L ∅ (∪)). apply lookup_singleton_eq.
  - rewrite lookup_union_r; [apply lookup_singleton_eq|].
    by rewrite lookup_singleton_ne.
  - rewrite lookup_union_r; [apply lookup_singleton_eq|].
    by rewrite lookup_singleton_ne.
Qed.

Lemma update_fields_nonempty p :
  ¬ nothing_to_update p → update_fields p ≠ ∅.
Proof.
  intros Hn Hempty. apply Hn. split.
  - destruct (TodoUpdate.title p) as [|[t|]] eqn:E; try done.
    apply update_fields_title in E. rewrite Hempty in E. done.
  - destruct (TodoUpdate.completed p) as [|[c|]] eqn:E; try done.
    apply update_fields_completed in E. rewrite Hempty in E. done.
Qed.

(** Only [title] and [completed] can be in the field set, each with the
    value the request carries. *)
Lemma update_fields_lookup p k v :
  update_fields p !! k = Some v →
  (k = "title" ∧ ∃ t, TodoUpdate.title p = Supplied (Some t) ∧ v = VStr t) ∨
  (k = "completed" ∧ ∃ c, TodoUpdate.completed p = Supplied (Some c) ∧ v = VBool c).
Proof.
  unfold update_fields, TodoUpdate.model_dump_exclude_unset.
  intros [H Hv]%map_lookup_filter_Some. simpl in Hv.
  apply lookup_union_Some_raw in H as [H|[_ H]].
  - left. destruct (TodoUpdate.title p) as [|[t|]]; simpl in H.
    + done.
    + apply lookup_singleton_Some in H as [<- <-]. eauto.
    + apply lookup_singleton_Some in H as [<- <-]. done.
  - right. destruct (TodoUpdate.completed p) as [|[c|]]; simpl in H.
    + done.
    + apply lookup_singleton_Some in H as [<- <-]. eauto.
    + apply lookup_singleton_Some in H as [<- <-]. done.
Qed.

(** ** Malformed identifiers and empty updates *)

Lemma route_Raise_HTTP {A} code (to_json : A → FastAPI.content) (h : M A)
    db c detail db' :
  h db = (Raise (HTTPException c detail), db') →
  FastAPI.route code to_json h db
  = ({| FastAPI.status := c;
        FastAPI.body := if FastAPI.is_body_allowed_for_status_code c
                        then Some (FastAPI.JDetail detail) else None |}, db').
Proof. intros H. unfold FastAPI.route. by rewrite H. Qed.

Lemma update_todo_invalid_id now todo_id payload db e :
  Bson.ObjectId_of_str todo_id = Raise e →
  update_todo now todo_id payload db = (Raise (HTTPException 400 "Invalid ID"), db).
Proof. intros H. unfold update_todo. by apply bind_Raise, parse_id_Raise with e. Qed.

Lemma delete_todo_invalid_id todo_id db e :
  Bson.ObjectId_of_str todo_id = Raise e →
  delete_todo todo_id db = (Raise (HTTPException 400 "Invalid ID"), db).
Proof. intros H. unfold delete_todo. by apply bind_Raise, parse_id_Raise with e. Qed.

(** C4: an update or a delete whose path identifier does not parse as an
    ObjectId raises the 400 "Invalid ID" (not the 404) and nothing else
    happens: the store is returned as it was given, whether it is absent,
    unreachable, or holds any documents. *)
Theorem malformed_id_is_bad_request now todo_id payload db e :
  Bson.ObjectId_of_str todo_id = Raise e →
  update_todo now todo_id payload db
    = (Raise (HTTPException 400 "Invalid ID"), db) ∧
  delete_todo todo_id db = (Raise (HTTPException 400 "Invalid ID"), db) ∧
  PATCH_todo now todo_id payload db = (bad_request "Invalid ID", db) ∧
  DELETE_todo todo_id db = (bad_request "Invalid ID", db).
Proof.
  intros H.
  pose proof (update_todo_invalid_id now todo_id payload db e H) as Hu.
  pose proof (delete_todo_invalid_id todo_id db e H) as Hd.
  repeat split; try done.
  - unfold PATCH_todo. by rewrite (route_Raise_HTTP _ _ _ _ _ _ _ Hu).
  - unfold DELETE_todo. by rewrite (route_Raise_HTTP _ _ _ _ _ _ _ Hd).
Qed.

Lemma malformed_id_is_bad_request_witness :
  ∃ e, Bson.ObjectId_of_str "42" = Raise e ∧
       DELETE_todo "42" None = (bad_request "Invalid ID", None).
Proof.
  eexists. split; [reflexivity|].
  eapply (malformed_id_is_bad_request
            0 "42" {| TodoUpdate.title := Unset; TodoUpdate.completed := Unset |}).
  reflexivity.
Defined.

Lemma update_todo_no_fields now todo_id payload db oid :
  Bson.ObjectId_of_str todo_id = Return oid →
  update_fields payload = ∅ →
  update_todo now todo_id payload db
  = (Raise (HTTPException 400 "No fields to update"), db).
Proof.
  intros Hid Hempty. unfold update_todo.
  rewrite (bind_Return _ _ _ _ _ (parse_id_Return _ _ _ Hid)).
  rewrite Hempty. by rewrite decide_True.
Qed.

(** C2: an update whose effective field set is empty (the body is {} or
    every supplied field is null) is answered with status 400, whatever the
    identifier and the store, and the store is returned as it was given:
    no field and no updated_at is written. *)
Theorem empty_update_is_bad_request now todo_id payload db :
  nothing_to_update payload →
  ∃ detail,
    update_todo now todo_id payload db = (Raise (HTTPException 400 detail), db) ∧
    PATCH_todo now todo_id payload db = (bad_request detail, db).
Proof.
  intros Hempty%update_fields_empty.
  destruct (Bson.ObjectId_of_str todo_id) as [e|oid] eqn:Hid.
  - exists "Invalid ID".
    pose proof (update_todo_invalid_id now todo_id payload db e Hid) as Hu.
    split; [done|]. unfold PATCH_todo. by rewrite (route_Raise_HTTP _ _ _ _ _ _ _ Hu).
  - exists "No fields to update".
    pose proof (update_todo_no_fields now todo_id payload db oid Hid Hempty) as Hu.
    split; [done|]. unfold PATCH_todo. by rewrite (route_Raise_HTTP _ _ _ _ _ _ _ Hu).
Qed.

Lemma empty_update_is_bad_request_witness :
  nothing_to_update
    {| TodoUpdate.title := Supplied None; TodoUpdate.completed := Unset |} ∧
  ∃ detail,
    PATCH_todo 1700000000500 "65f0a1b2c3d4e5f601234501"
      {| TodoUpdate.title := Supplied None; TodoUpdate.completed := Unset |}
      (store_of [milk])
    = (bad_request detail, store_of [milk]).
Proof.
  split; [by split|].
  destruct (empty_update_is_bad_request 1700000000500 "65f0a1b2c3d4e5f601234501"
              {| TodoUpdate.title := Supplied None; TodoUpdate.completed := Unset |}
              (store_of [milk])) as [detail [_ H]]; [by split|].
  by exists detail.
Defined.

(** ** Serialization *)

Lemma serialize_todo_meets_contract d : serialization_contract d (serialize_todo d).
Proof.
  unfold serialization_contract, serialize_todo, Py.dict_get, Py.dict_get_default.
  simpl. repeat split; try done.
  - by intros o ->.
  - by intros b ->.
  - by intros ->.
Qed.

(** ** The diagnostic endpoint *)

(** C8: whatever the store (no handle, a server that cannot be reached, a
    working server) and whatever the environment, [test_database] returns
    and the route answers 200 with the payload; the failure of the
    connection test is a text in the [database] field; the two
    configuration fields say "Set" or "Not Set" and the whole answer is the
    same for any two environments in which the same variables are set. *)
Theorem test_database_never_raises env db :
  ∃ r,
    test_database env db = (Return r, db) ∧
    GET_test env db
    = ({| FastAPI.status := 200; FastAPI.body := Some (FastAPI.JDiagnostics r) |}, db) ∧
    backend r = "✅ Running" ∧
    database r =
      match db with
      | None => "⚠️  Available but not initialized"
      | Some {| Mongo.srv := Mongo.Down err |} =>
          "⚠️  Connected but Error: " +:+ Py.str_take 50 err
      | Some {| Mongo.srv := Mongo.Up _ |} => "✅ Connected & Working"
      end ∧
    database_url r
    = Some (if getenv_truthy env "DATABASE_URL" then "✅ Set" else "❌ Not Set") ∧
    database_name r
    = Some (if getenv_truthy env "DATABASE_NAME" then "✅ Set" else "❌ Not Set") ∧
    ∀ env',
      getenv_truthy env' "DATABASE_URL" = getenv_truthy env "DATABASE_URL" →
      getenv_truthy env' "DATABASE_NAME" = getenv_truthy env "DATABASE_NAME" →
      GET_test env' db = GET_test env db.
Proof.
  destruct db as [[name [err|colls]]|].
  - eexists. repeat split. intros env' Hu Hn.
    unfold GET_test, FastAPI.route, test_database, mbind, M_bind, try_except.
    simpl. by rewrite Hu, Hn.
  - eexists. repeat split. intros env' Hu Hn.
    unfold GET_test, FastAPI.route, test_database, mbind, M_bind, try_except.
    simpl. by rewrite Hu, Hn.
  - eexists. repeat split. intros env' Hu Hn.
    unfold GET_test, FastAPI.route, test_database, mbind, M_bind, try_except.
    simpl. by rewrite Hu, Hn.
Qed.

(** ** The collection operations *)

Lemma get_collection_nonempty c colls :
  Mongo.get_collection c colls ≠ [] → Mongo.has_collection c colls = true.
Proof.
  induction colls as [|[k docs] colls IH]; simpl; [done|].
  destruct (String.eqb k c); [done|]. exact IH.
Qed.

Lemma get_set_collection c docs colls :
  Mongo.has_collection c colls = true →
  Mongo.get_collection c (Mongo.set_collection c docs colls) = docs.
Proof.
  induction colls as [|[k old] colls IH]; simpl; [done|].
  destruct (String.eqb k c) eqn:E; simpl; rewrite E; [done|]. exact IH.
Qed.

Lemma get_set_collection_ne c c' docs colls :
  c' ≠ c →
  Mongo.get_collection c' (Mongo.set_collection c docs colls)
  = Mongo.get_collection c' colls.
Proof.
  intros Hne. induction colls as [|[k old] colls IH]; simpl; [done|].
  destruct (String.eqb k c) eqn:E; simpl.
  - apply String.eqb_eq in E as ->.
    destruct (String.eqb c c') eqn:E'; [|done].
    apply String.eqb_eq in E'. congruence.
  - destruct (String.eqb k c'); [done|]. exact IH.
Qed.

(** What [update_first] does when a document matches: the first match, and
    only it, receives the fields. *)
Lemma update_first_Some oid fields docs docs' :
  Mongo.update_first oid fields docs = Some docs' →
  ∃ before d after,
    docs = (before ++ d :: after)%list ∧
    Forall (λ x, Mongo.matches_id oid x = false) before ∧
    Mongo.matches_id oid d = true ∧
    docs' = (before ++ (fields ∪ d) :: after)%list.
Proof.
  revert docs'. induction docs as [|x docs IH]; intros docs' H; simpl in H; [done|].
  destruct (Mongo.matches_id oid x) eqn:E.
  - injection H as <-. by exists [], x, docs.
  - destruct (Mongo.update_first oid fields docs) as [r|]; [|done].
    injection H as <-.
    destruct (IH r eq_refl) as (before & d & after & -> & Hb & Hd & ->).
    exists (x :: before), d, after. repeat split; try done. by constructor.
Qed.

Lemma delete_first_Some oid docs docs' :
  Mongo.delete_first oid docs = Some docs' →
  ∃ before d after,
    docs = (before ++ d :: after)%list ∧
    Forall (λ x, Mongo.matches_id oid x = false) before ∧
    Mongo.matches_id oid d = true ∧
    docs' = (before ++ after)%list.
Proof.
  revert docs'. induction docs as [|x docs IH]; intros docs' H; simpl in H; [done|].
  destruct (Mongo.matches_id oid x) eqn:E.
  - injection H as <-. by exists [], x, docs.
  - destruct (Mongo.delete_first oid docs) as [r|]; [|done].
    injection H as <-.
    destruct (IH r eq_refl) as (before & d & after & -> & Hb & Hd & ->).
    exists (x :: before), d, after. repeat split; try done. by constructor.
Qed.

Lemma find_first_middle oid before d after :
  Forall (λ x, Mongo.matches_id oid x = false) before →
  Mongo.matches_id oid d = true →
  Mongo.find_first oid (before ++ d :: after) = Some d.
Proof.
  intros Hb Hd. induction Hb as [|x before Hx _ IH]; simpl.
  - by rewrite Hd.
  - by rewrite Hx.
Qed.

Lemma find_first_None_update oid fields docs :
  Mongo.find_first oid docs = None → Mongo.update_first oid fields docs = None.
Proof.
  induction docs as [|x docs IH]; simpl; [done|].
  destruct (Mongo.matches_id oid x); [done|]. intros H. by rewrite IH.
Qed.

Lemma find_first_None_delete oid docs :
  Mongo.find_first oid docs = None → Mongo.delete_first oid docs = None.
Proof.
  induction docs as [|x docs IH]; simpl; [done|].
  destruct (Mongo.matches_id oid x); [done|]. intros H. by rewrite IH.
Qed.

Lemma find_first_Some_update oid fields docs d :
  Mongo.find_first oid docs = Some d →
  is_Some (Mongo.update_first oid fields docs).
Proof.
  induction docs as [|x docs IH]; simpl; [done|].
  destruct (Mongo.matches_id oid x); [eauto|].
  intros [r ->]%IH. eauto.
Qed.

Lemma find_first_Some_delete oid docs d :
  Mongo.find_first oid docs = Some d →
  is_Some (Mongo.delete_first oid docs).
Proof.
  induction docs as [|x docs IH]; simpl; [done|].
  destruct (Mongo.matches_id oid x); [eauto|].
  intros [r ->]%IH. eauto.
Qed.

Lemma find_first_elem oid docs d :
  Mongo.find_first oid docs = Some d → d ∈ docs ∧ Mongo.matches_id oid d = true.
Proof.
  induction docs as [|x docs IH]; simpl; [done|].
  destruct (Mongo.matches_id oid x) eqn:E.
  - intros [= ->]. split; [left|done].
  - intros [H1 H2]%IH. split; [by right|done].
Qed.

(** ** The collection operations against the global [db] *)

Lemma documents_None c db :
  documents c db = None →
  db = None ∨ ∃ name err, db = Some {| Mongo.name := name; Mongo.srv := Mongo.Down err |}.
Proof. destruct db as [[name [err|colls]]|]; simpl; eauto. done. Qed.

Lemma find_one_eval c oid db docs :
  documents c db = Some docs →
  find_one c oid db = (Return (Mongo.find_first oid docs), db).
Proof.
  destruct db as [[name [err|colls]]|]; simpl; try done.
  by intros [= <-].
Qed.

Lemma find_all_eval c db docs :
  documents c db = Some docs → find_all c db = (Return docs, db).
Proof.
  destruct db as [[name [err|colls]]|]; simpl; try done.
  by intros [= <-].
Qed.

Lemma update_one_miss c oid fields db docs :
  documents c db = Some docs →
  Mongo.update_first oid fields docs = None →
  update_one c oid fields db = (Return 0, db).
Proof.
  destruct db as [[name [err|colls]]|]; simpl; try done.
  intros [= <-] H. unfold update_one, on_server. simpl. by rewrite H.
Qed.

Lemma update_one_hit c oid fields db docs docs' :
  documents c db = Some docs →
  Mongo.update_first oid fields docs = Some docs' →
  ∃ db', update_one c oid fields db = (Return 1, db') ∧
         documents c db' = Some docs' ∧
         ∀ c', c' ≠ c → documents c' db' = documents c' db.
Proof.
  destruct db as [[name [err|colls]]|]; simpl; try done.
  intros [= <-] H. unfold update_one, on_server. simpl. rewrite H.
  eexists. split; [done|]. simpl. split.
  - f_equal. apply get_set_collection, get_collection_nonempty.
    by destruct (Mongo.get_collection c colls).
  - intros c' Hne. f_equal. by apply get_set_collection_ne.
Qed.

Lemma delete_one_miss c oid db docs :
  documents c db = Some docs →
  Mongo.delete_first oid docs = None →
  delete_one c oid db = (Return 0, db).
Proof.
  destruct db as [[name [err|colls]]|]; simpl; try done.
  intros [= <-] H. unfold delete_one, on_server. simpl. by rewrite H.
Qed.

Lemma delete_one_hit c oid db docs docs' :
  documents c db = Some docs →
  Mongo.delete_first oid docs = Some docs' →
  ∃ db', delete_one c oid db = (Return 1, db') ∧
         documents c db' = Some docs' ∧
         ∀ c', c' ≠ c → documents c' db' = documents c' db.
Proof.
  destruct db as [[name [err|colls]]|]; simpl; try done.
  intros [= <-] H. unfold delete_one, on_server. simpl. rewrite H.
  eexists. split; [done|]. simpl. split.
  - f_equal. apply get_set_collection, get_collection_nonempty.
    by destruct (Mongo.get_collection c colls).
  - intros c' Hne. f_equal. by apply get_set_collection_ne.
Qed.

(** A call on a store that cannot be reached raises and leaves it as it
    is. *)
Lemma on_server_unreachable {A} msg
    (f : list (string * list doc) → result A * list (string * list doc)) c db :
  documents c db = None →
  ∃ text, on_server msg f db = (Raise (Exception text), db).
Proof. destruct db as [[name [err|colls]]|]; simpl; eauto. done. Qed.

(** ** Delete *)

Lemma delete_todo_parsed todo_id oid db :
  Bson.ObjectId_of_str todo_id = Return oid →
  delete_todo todo_id db
  = (deleted_count ← delete_one "todo" oid;
     if deleted_count =? 0 then raise (HTTPException 404 "Todo not found")
     else mret true) db.
Proof.
  intros Hid. unfold delete_todo.
  by rewrite (bind_Return _ _ _ _ _ (parse_id_Return _ _ _ Hid)).
Qed.

Lemma delete_todo_missing todo_id oid db docs :
  Bson.ObjectId_of_str todo_id = Return oid →
  todos db = Some docs →
  Mongo.find_first oid docs = None →
  delete_todo todo_id db = (Raise (HTTPException 404 "Todo not found"), db).
Proof.
  intros Hid Hdocs Hnone. rewrite (delete_todo_parsed _ _ _ Hid).
  apply find_first_None_delete in Hnone.
  by rewrite (bind_Return _ _ _ _ _ (delete_one_miss _ _ _ _ Hdocs Hnone)).
Qed.

Lemma delete_todo_found todo_id oid db docs docs' :
  Bson.ObjectId_of_str todo_id = Return oid →
  todos db = Some docs →
  Mongo.delete_first oid docs = Some docs' →
  ∃ db', delete_todo todo_id db = (Return true, db') ∧
         todos db' = Some docs' ∧
         ∀ c, c ≠ "todo" → documents c db' = documents c db.
Proof.
  intros Hid Hdocs Hdel. rewrite (delete_todo_parsed _ _ _ Hid).
  destruct (delete_one_hit _ _ _ _ _ Hdocs Hdel) as (db' & Hrun & Hdocs' & Hframe).
  exists db'. by rewrite (bind_Return _ _ _ _ _ Hrun).
Qed.

Lemma delete_todo_unreachable todo_id oid db :
  Bson.ObjectId_of_str todo_id = Return oid →
  todos db = None →
  ∃ text, delete_todo todo_id db = (Raise (Exception text), db).
Proof.
  intros Hid Hdocs. rewrite (delete_todo_parsed _ _ _ Hid).
  destruct (on_server_unreachable not_subscriptable
              (λ colls,
                 match Mongo.delete_first oid (Mongo.get_collection "todo" colls) with
                 | Some docs' => (Return 1, Mongo.set_collection "todo" docs' colls)
                 | None => (Return 0, colls)
                 end) "todo" db Hdocs) as [text Hrun].
  exists text. by apply bind_Raise.
Qed.

(** A delete returns only along one path: the identifier parses, the store
    answers, and a document matches and is removed. *)
Lemma delete_todo_Return todo_id db ok db' :
  delete_todo todo_id db = (Return ok, db') →
  ∃ oid docs docs',
    Bson.ObjectId_of_str todo_id = Return oid ∧
    todos db = Some docs ∧
    Mongo.delete_first oid docs = Some docs' ∧
    todos db' = Some docs' ∧
    (∀ c, c ≠ "todo" → documents c db' = documents c db) ∧
    ok = true.
Proof.
  intros H.
  destruct (Bson.ObjectId_of_str todo_id) as [e|oid] eqn:Hid.
  { by rewrite (delete_todo_invalid_id _ _ _ Hid) in H. }
  destruct (todos db) as [docs|] eqn:Hdocs.
  2:{ destruct (delete_todo_unreachable _ _ _ Hid Hdocs) as [text Hrun]. congruence. }
  destruct (Mongo.delete_first oid docs) as [docs'|] eqn:Hdel.
  - destruct (delete_todo_found _ _ _ _ _ Hid Hdocs Hdel) as (db1 & Hrun & Hd & Hf).
    rewrite Hrun in H. injection H as <- <-. by exists oid, docs, docs'.
  - rewrite (delete_todo_parsed _ _ _ Hid) in H.
    rewrite (bind_Return _ _ _ _ _ (delete_one_miss _ _ _ _ Hdocs Hdel)) in H.
    done.
Qed.

(** C9: when a delete succeeds (the handler returns), the response is the
    status 204 and carries no body: the handler's confirmation value is
    not sent.  Such a delete removed the first document with the given
    identifier and nothing else. *)
Theorem successful_delete_has_no_content todo_id db ok db' :
  delete_todo todo_id db = (Return ok, db') →
  DELETE_todo todo_id db = (no_content, db') ∧
  ∃ oid before d after,
    Bson.ObjectId_of_str todo_id = Return oid ∧
    todos db = Some (before ++ d :: after)%list ∧
    Mongo.find_first oid (before ++ d :: after) = Some d ∧
    todos db' = Some (before ++ after)%list.
Proof.
  intros H. split.
  - unfold DELETE_todo, FastAPI.route. by rewrite H.
  - destruct (delete_todo_Return _ _ _ _ H)
      as (oid & docs & docs' & Hid & Hdocs & Hdel & Hdocs' & _ & _).
    destruct (delete_first_Some _ _ _ Hdel) as (before & d & after & -> & Hb & Hd & ->).
    exists oid, before, d, after. repeat split; try done.
    by apply find_first_middle.
Qed.

Lemma successful_delete_has_no_content_witness :
  DELETE_todo "65f0a1b2c3d4e5f601234501" (store_of [undated; milk])
  = (no_content, store_of [undated]).
Proof.
  apply (successful_delete_has_no_content
           "65f0a1b2c3d4e5f601234501" (store_of [undated; milk]) true
           (store_of [undated])).
  reflexivity.
Defined.

(** ** Identifiers that match no document *)

Lemma update_todo_parsed now todo_id payload oid db :
  Bson.ObjectId_of_str todo_id = Return oid →
  update_fields payload ≠ ∅ →
  update_todo now todo_id payload db
  = (matched_count ←
       update_one "todo" oid (<["updated_at" := VDate now]> (update_fields payload));
     if matched_count =? 0 then raise (HTTPException 404 "Todo not found")
     else found ← find_one "todo" oid; serialize_found found) db.
Proof.
  intros Hid Hne. unfold update_todo.
  rewrite (bind_Return _ _ _ _ _ (parse_id_Return _ _ _ Hid)).
  by rewrite decide_False.
Qed.

Lemma update_todo_missing now todo_id payload oid db docs :
  Bson.ObjectId_of_str todo_id = Return oid →
  update_fields payload ≠ ∅ →
  todos db = Some docs →
  Mongo.find_first oid docs = None →
  update_todo now todo_id payload db
  = (Raise (HTTPException 404 "Todo not found"), db).
Proof.
  intros Hid Hne Hdocs Hnone. rewrite (update_todo_parsed _ _ _ _ _ Hid Hne).
  eapply find_first_None_update in Hnone.
  by rewrite (bind_Return _ _ _ _ _ (update_one_miss _ _ _ _ _ Hdocs Hnone)).
Qed.

(** C5, as the code has it: against a store that can be reached, a delete,
    and an update that carries at least one value, with a well-formed
    identifier that matches no stored document, are answered with 404 "Todo
    not found", and the store is left as it was. *)
Theorem missing_document_is_not_found now todo_id payload oid db docs :
  Bson.ObjectId_of_str todo_id = Return oid →
  todos db = Some docs →
  Mongo.find_first oid docs = None →
  DELETE_todo todo_id db = (not_found "Todo not found", db) ∧
  (¬ nothing_to_update payload →
   PATCH_todo now todo_id payload db = (not_found "Todo not found", db)).
Proof.
  intros Hid Hdocs Hnone. split.
  - unfold DELETE_todo.
    by rewrite (route_Raise_HTTP _ _ _ _ _ _ _
                  (delete_todo_missing _ _ _ _ Hid Hdocs Hnone)).
  - intros Hne%update_fields_nonempty. unfold PATCH_todo.
    by rewrite (route_Raise_HTTP _ _ _ _ _ _ _
                  (update_todo_missing now _ _ _ _ _ Hid Hne Hdocs Hnone)).
Qed.

Lemma missing_document_is_not_found_witness :
  DELETE_todo "65f0a1b2c3d4e5f601234502" (store_of [milk])
  = (not_found "Todo not found", store_of [milk]) ∧
  PATCH_todo 1700000000500 "65f0a1b2c3d4e5f601234502" complete_it (store_of [milk])
  = (not_found "Todo not found", store_of [milk]).
Proof.
  destruct (missing_document_is_not_found 1700000000500
              "65f0a1b2c3d4e5f601234502" complete_it id2 (store_of [milk]) [milk]
              eq_refl eq_refl eq_refl) as [Hd Hu].
  split; [exact Hd|]. apply Hu. by intros [_ ?].
Defined.

(** C5 as stated fails: an update with a well-formed identifier that
    matches no stored document, and with the body {}, is answered with 400,
    not with 404. *)
Lemma empty_update_of_missing_document_is_400 :
  Bson.ObjectId_of_str "65f0a1b2c3d4e5f601234502" = Return id2 ∧
  todos (store_of [milk]) = Some [milk] ∧
  Mongo.find_first id2 [milk] = None ∧
  PATCH_todo 1700000000500 "65f0a1b2c3d4e5f601234502" no_changes (store_of [milk])
  = (bad_request "No fields to update", store_of [milk]) ∧
  bad_request "No fields to update" ≠ not_found "Todo not found".
Proof. repeat split; done. Qed.

(** ** Update *)

Lemma stamped_fields_lookup_id now payload :
  (<["updated_at" := VDate now]> (update_fields payload) : doc) !! "_id" = None.
Proof.
  rewrite lookup_insert_ne by done.
  destruct (update_fields payload !! "_id") as [v|] eqn:E; [|done].
  apply update_fields_lookup in E as [[? _]|[? _]]; done.
Qed.

Lemma matches_id_union oid (fields d : doc) :
  fields !! "_id" = None →
  Mongo.matches_id oid (fields ∪ d) = Mongo.matches_id oid d.
Proof. intros H. unfold Mongo.matches_id. by rewrite lookup_union_r. Qed.

Lemma update_todo_unreachable now todo_id payload oid db :
  Bson.ObjectId_of_str todo_id = Return oid →
  update_fields payload ≠ ∅ →
  todos db = None →
  ∃ text, update_todo now todo_id payload db = (Raise (Exception text), db).
Proof.
  intros Hid Hne Hdocs. rewrite (update_todo_parsed _ _ _ _ _ Hid Hne).
  destruct (on_server_unreachable not_subscriptable
              (λ colls,
                 match Mongo.update_first oid
                         (<["updated_at" := VDate now]> (update_fields payload))
                         (Mongo.get_collection "todo" colls) with
                 | Some docs' => (Return 1, Mongo.set_collection "todo" docs' colls)
                 | None => (Return 0, colls)
                 end) "todo" db Hdocs) as [text Hrun].
  exists text. by apply bind_Raise.
Qed.

(** The path on which an update returns: the first document with the
    identifier receives the stamped fields and is read back. *)
Lemma update_todo_found now todo_id payload oid db before d after :
  Bson.ObjectId_of_str todo_id = Return oid →
  update_fields payload ≠ ∅ →
  todos db = Some (before ++ d :: after)%list →
  Forall (λ x, Mongo.matches_id oid x = false) before →
  Mongo.matches_id oid d = true →
  let d' := <["updated_at" := VDate now]> (update_fields payload) ∪ d in
  ∃ db', update_todo now todo_id payload db = (Return (serialize_todo d'), db') ∧
         todos db' = Some (before ++ d' :: after)%list ∧
         ∀ c, c ≠ "todo" → documents c db' = documents c db.
Proof.
  intros Hid Hne Hdocs Hb Hd d'.
  rewrite (update_todo_parsed _ _ _ _ _ Hid Hne).
  assert (Hup : Mongo.update_first oid
                  (<["updated_at" := VDate now]> (update_fields payload))
                  (before ++ d :: after)
                = Some (before ++ d' :: after)%list).
  { clear Hdocs. induction Hb as [|x before Hx _ IH]; simpl.
    - by rewrite Hd.
    - by rewrite Hx, IH. }
  destruct (update_one_hit _ _ _ _ _ _ Hdocs Hup) as (db' & Hrun & Hdocs' & Hframe).
  exists db'. rewrite (bind_Return _ _ _ _ _ Hrun). simpl.
  rewrite (bind_Return _ _ _ _ _ (find_one_eval _ oid _ _ Hdocs')).
  rewrite find_first_middle; [done|done|].
  subst d'. by rewrite matches_id_union by apply stamped_fields_lookup_id.
Qed.

Lemma update_todo_Return now todo_id payload db t db' :
  update_todo now todo_id payload db = (Return t, db') →
  ∃ oid before d after,
    Bson.ObjectId_of_str todo_id = Return oid ∧
    update_fields payload ≠ ∅ ∧
    todos db = Some (before ++ d :: after)%list ∧
    Forall (λ x, Mongo.matches_id oid x = false) before ∧
    Mongo.matches_id oid d = true ∧
    t = serialize_todo (<["updated_at" := VDate now]> (update_fields payload) ∪ d) ∧
    todos db'
    = Some (before ++
            (<["updated_at" := VDate now]> (update_fields payload) ∪ d) :: after)%list ∧
    ∀ c, c ≠ "todo" → documents c db' = documents c db.
Proof.
  intros H.
  destruct (Bson.ObjectId_of_str todo_id) as [e|oid] eqn:Hid.
  { by rewrite (update_todo_invalid_id _ _ _ _ _ Hid) in H. }
  destruct (decide (update_fields payload = ∅)) as [Hempty|Hne].
  { by rewrite (update_todo_no_fields _ _ _ _ _ Hid Hempty) in H. }
  destruct (todos db) as [docs|] eqn:Hdocs.
  2:{ destruct (update_todo_unreachable now _ _ _ _ Hid Hne Hdocs) as [text Hrun].
      congruence. }
  destruct (Mongo.update_first oid
              (<["updated_at" := VDate now]> (update_fields payload)) docs)
    as [docs'|] eqn:Hup.
  - destruct (update_first_Some _ _ _ _ Hup) as (before & d & after & -> & Hb & Hd & ->).
    destruct (update_todo_found now _ _ _ _ _ _ _ Hid Hne Hdocs Hb Hd)
      as (db1 & Hrun & Hdocs' & Hframe).
    rewrite Hrun in H. injection H as <- <-.
    by exists oid, before, d, after.
  - rewrite (update_todo_parsed _ _ _ _ _ Hid Hne) in H.
    rewrite (bind_Return _ _ _ _ _ (update_one_miss _ _ _ _ _ Hdocs Hup)) in H.
    done.
Qed.

Lemma stamped_union_frame now payload (d : doc) k :
  k ≠ "updated_at" →
  (k = "title" → carries_value (TodoUpdate.title payload) = false) →
  (k = "completed" → carries_value (TodoUpdate.completed payload) = false) →
  (<["updated_at" := VDate now]> (update_fields payload) ∪ d) !! k = d !! k.
Proof.
  intros Hk Ht Hc. apply lookup_union_r. rewrite lookup_insert_ne by done.
  destruct (update_fields payload !! k) as [v|] eqn:E; [|done].
  apply update_fields_lookup in E as [[-> (t & Hs & _)]|[-> (c & Hs & _)]].
  - specialize (Ht eq_refl). by rewrite Hs in Ht.
  - specialize (Hc eq_refl). by rewrite Hs in Hc.
Qed.

(** C3: when an update succeeds (the handler returns), the document with
    the given identifier has received updated_at and the values the request
    carries for title and completed; its _id, its created_at and every
    field the request carries no value for are as before, in the store and
    in the response; every other document is untouched. *)
Theorem update_changes_only_supplied_fields now todo_id payload db t db' :
  update_todo now todo_id payload db = (Return t, db') →
  updated_only_supplied now todo_id payload db db' t.
Proof.
  intros H.
  destruct (update_todo_Return _ _ _ _ _ _ H)
    as (oid & before & d & after & Hid & Hne & Hdocs & Hb & Hd & -> & Hdocs' & Hframe).
  set (d' := <["updated_at" := VDate now]> (update_fields payload) ∪ d) in *.
  assert (Hkeep : ∀ k, k ≠ "updated_at" →
            (k = "title" → carries_value (TodoUpdate.title payload) = false) →
            (k = "completed" → carries_value (TodoUpdate.completed payload) = false) →
            d' !! k = d !! k)
    by (intros; by apply stamped_union_frame).
  exists oid, before, d, after, d'. repeat split; try done.
  - by apply find_first_middle.
  - apply lookup_union_Some_l, lookup_insert_eq.
  - intros v Hv. apply lookup_union_Some_l. rewrite lookup_insert_ne by done.
    by apply update_fields_title.
  - intros v Hv. apply lookup_union_Some_l. rewrite lookup_insert_ne by done.
    by apply update_fields_completed.
  - unfold serialize_todo, Py.dict_get. simpl. by rewrite Hkeep.
  - unfold serialize_todo, Py.dict_get. simpl. by rewrite Hkeep.
  - intros Ht. unfold serialize_todo, Py.dict_get_default. simpl. by rewrite Hkeep.
  - intros Hc. unfold serialize_todo, Py.dict_get_default. simpl. by rewrite Hkeep.
Qed.

Lemma update_changes_only_supplied_fields_witness :
  updated_only_supplied 1700000000500 "65f0a1b2c3d4e5f601234501" complete_it
    (store_of [undated; milk])
    (store_of [undated;
               <["completed" := VBool true]>
                 (<["updated_at" := VDate 1700000000500]> milk)])
    {| id := "65f0a1b2c3d4e5f601234501";
       title := VStr "Buy milk";
       completed := true;
       created_at := VDate 1700000000000;
       updated_at := VDate 1700000000500 |}.
Proof.
  apply update_changes_only_supplied_fields. reflexivity.
Defined.

(** ** Create *)

Lemma has_collection_false c colls :
  Mongo.has_collection c colls = false → Mongo.get_collection c colls = [].
Proof.
  induction colls as [|[k docs] colls IH]; simpl; [done|].
  destruct (String.eqb k c); [done|]. exact IH.
Qed.

Lemma get_collection_app_new c docs colls :
  Mongo.has_collection c colls = false →
  Mongo.get_collection c (colls ++ [(c, docs)]) = docs.
Proof.
  induction colls as [|[k old] colls IH]; simpl.
  - by rewrite String.eqb_refl.
  - destruct (String.eqb k c); [done|]. exact IH.
Qed.

Lemma get_collection_app_ne c c' docs colls :
  c' ≠ c →
  Mongo.get_collection c' (colls ++ [(c, docs)]) = Mongo.get_collection c' colls.
Proof.
  intros Hne. induction colls as [|[k old] colls IH]; simpl.
  - destruct (String.eqb c c') eqn:E; [|done].
    apply String.eqb_eq in E. congruence.
  - destruct (String.eqb k c'); [done|]. exact IH.
Qed.

Lemma find_first_None_existsb oid docs :
  Mongo.find_first oid docs = None →
  existsb (λ d', bool_decide (d' !! "_id" = Some (VOid oid))) docs = false.
Proof.
  induction docs as [|x docs IH]; simpl; [done|].
  unfold Mongo.matches_id at 1.
  destruct (bool_decide (x !! "_id" = Some (VOid oid))); [done|]. exact IH.
Qed.

Lemma find_first_None_Forall oid docs :
  Mongo.find_first oid docs = None →
  Forall (λ x, Mongo.matches_id oid x = false) docs.
Proof.
  induction docs as [|x docs IH]; simpl; [constructor|].
  destruct (Mongo.matches_id oid x) eqn:E; [done|].
  intros H. constructor; [done|]. by apply IH.
Qed.

Lemma insert_one_fresh new_id c (d : doc) db docs :
  documents c db = Some docs →
  d !! "_id" = None →
  Mongo.find_first new_id docs = None →
  ∃ db', insert_one new_id c d db = (Return (VOid new_id), db') ∧
         documents c db' = Some (docs ++ [<["_id" := VOid new_id]> d])%list ∧
         ∀ c', c' ≠ c → documents c' db' = documents c' db.
Proof.
  destruct db as [[name [err|colls]]|]; simpl; try done.
  intros [= <-] Hid Hfresh. unfold insert_one, on_server. simpl.
  rewrite Hid. unfold Py.dict_get. rewrite lookup_insert_eq. simpl.
  rewrite (find_first_None_existsb _ _ Hfresh).
  destruct (Mongo.has_collection c colls) eqn:Hc.
  - eexists. split; [done|]. simpl. split.
    + f_equal. by apply get_set_collection.
    + intros c' Hne. f_equal. by apply get_set_collection_ne.
  - eexists. split; [done|]. simpl. split.
    + f_equal. rewrite (has_collection_false _ _ Hc). simpl.
      by apply get_collection_app_new.
    + intros c' Hne. f_equal. by apply get_collection_app_ne.
Qed.

Lemma inserted_doc_is_new_todo_doc now new_id title :
  <["_id" := VOid new_id]>
    (<["created_at" := VDate now]> (Todo.model_dump (Todo.new title)))
  = new_todo_doc now new_id title.
Proof.
  unfold new_todo_doc, Todo.model_dump, Todo.new. simpl.
  apply map_eq. intros k.
  destruct (decide (k = "_id")) as [->|H1]; [by simplify_map_eq|].
  destruct (decide (k = "created_at")) as [->|H2]; [by simplify_map_eq|].
  destruct (decide (k = "title")) as [->|H3]; [by simplify_map_eq|].
  destruct (decide (k = "completed")) as [->|H4]; [by simplify_map_eq|].
  by simplify_map_eq.
Qed.

(** The path on which a create returns: the store answers and the
    generated identifier is new. *)
Lemma create_todo_fresh now new_id payload db docs :
  todos db = Some docs →
  well_formed new_id →
  Mongo.find_first new_id docs = None →
  let d := new_todo_doc now new_id (TodoCreate.title payload) in
  ∃ db', create_todo now new_id payload db = (Return (serialize_todo d), db') ∧
         todos db' = Some (docs ++ [d])%list ∧
         Mongo.find_first new_id (docs ++ [d]) = Some d ∧
         ∀ c, c ≠ "todo" → documents c db' = documents c db.
Proof.
  intros Hdocs Hwf Hfresh d.
  destruct (insert_one_fresh new_id "todo"
              (<["created_at" := VDate now]>
                 (Todo.model_dump (Todo.new (TodoCreate.title payload))))
              db docs Hdocs) as (db' & Hrun & Hdocs' & Hframe); [done|done|].
  rewrite inserted_doc_is_new_todo_doc in Hdocs'. fold d in Hdocs'.
  assert (Hfind : Mongo.find_first new_id (docs ++ [d]) = Some d).
  { apply find_first_middle; [by apply find_first_None_Forall|].
    unfold Mongo.matches_id, d, new_todo_doc. by rewrite lookup_insert_eq, bool_decide_eq_true_2. }
  exists db'. repeat split; try done.
  unfold create_todo, try_except, create_document.
  rewrite (bind_Return _ _ _ _ _ (bind_Return _ _ _ _ _ Hrun)). simpl.
  unfold well_formed in Hwf. unfold mret, M_ret.
  change ((oid ← lift (Bson.ObjectId_of_str (hex new_id));
           found ← find_one "todo" oid; serialize_found found) db')
    with (match lift (Bson.ObjectId_of_str (hex new_id)) db' with
          | (Raise e, db1) => (Raise e, db1)
          | (Return a, db1) => (found ← find_one "todo" a; serialize_found found) db1
          end).
  unfold lift. rewrite Hwf.
  rewrite (bind_Return _ _ _ _ _ (find_one_eval _ new_id _ _ Hdocs')).
  by rewrite Hfind.
Qed.

Lemma serialize_new_todo_doc now new_id title :
  serialize_todo (new_todo_doc now new_id title)
  = {| id := hex new_id; title := VStr title; completed := false;
       created_at := VDate now; updated_at := VNone |}.
Proof.
  unfold serialize_todo, new_todo_doc, Py.dict_get, Py.dict_get_default.
  by simplify_map_eq.
Qed.

(** C6: a create request carries a title, and any string is taken, the
    empty one included.  Against a store that can be reached, with a newly
    generated identifier, the request is answered with 201 and the todo;
    the document appended to the collection has the title, completed =
    false, the created_at of the call and no updated_at. *)
Theorem create_persists_new_todo now new_id payload db docs :
  todos db = Some docs →
  well_formed new_id →
  Mongo.find_first new_id docs = None →
  ∃ db' d,
    POST_todos now new_id payload db
    = (created {| id := hex new_id;
                  title := VStr (TodoCreate.title payload);
                  completed := false;
                  created_at := VDate now;
                  updated_at := VNone |}, db') ∧
    todos db' = Some (docs ++ [d])%list ∧
    d !! "_id" = Some (VOid new_id) ∧
    d !! "title" = Some (VStr (TodoCreate.title payload)) ∧
    d !! "completed" = Some (VBool false) ∧
    d !! "created_at" = Some (VDate now) ∧
    d !! "updated_at" = None.
Proof.
  intros Hdocs Hwf Hfresh.
  destruct (create_todo_fresh now new_id payload db docs Hdocs Hwf Hfresh)
    as (db' & Hrun & Hdocs' & _ & _).
  exists db', (new_todo_doc now new_id (TodoCreate.title payload)).
  split; [|split; [done|]].
  - unfold POST_todos, FastAPI.route. rewrite Hrun.
    by rewrite serialize_new_todo_doc.
  - unfold new_todo_doc. by simplify_map_eq.
Qed.

Lemma create_persists_new_todo_witness :
  ∃ db' d,
    POST_todos 1700000000900 id2 {| TodoCreate.title := "" |} (store_of [milk])
    = (created {| id := "65f0a1b2c3d4e5f601234502";
                  title := VStr "";
                  completed := false;
                  created_at := VDate 1700000000900;
                  updated_at := VNone |}, db') ∧
    todos db' = Some [milk; d] ∧
    d !! "_id" = Some (VOid id2) ∧
    d !! "title" = Some (VStr "") ∧
    d !! "completed" = Some (VBool false) ∧
    d !! "created_at" = Some (VDate 1700000000900) ∧
    d !! "updated_at" = None.
Proof.
  apply (create_persists_new_todo 1700000000900 id2 {| TodoCreate.title := "" |}
           (store_of [milk]) [milk]); reflexivity.
Defined.

(** C10: against a store that can be reached, with a newly generated
    identifier, what a create returns is what a read of the store by the
    returned id serializes to, right after the create. *)
Theorem create_returns_what_a_read_returns now new_id payload db docs :
  todos db = Some docs →
  well_formed new_id →
  Mongo.find_first new_id docs = None →
  ∃ t db' oid d,
    create_todo now new_id payload db = (Return t, db') ∧
    Bson.ObjectId_of_str (id t) = Return oid ∧
    find_one "todo" oid db' = (Return (Some d), db') ∧
    serialize_todo d = t.
Proof.
  intros Hdocs Hwf Hfresh.
  destruct (create_todo_fresh now new_id payload db docs Hdocs Hwf Hfresh)
    as (db' & Hrun & Hdocs' & Hfind & _).
  exists (serialize_todo (new_todo_doc now new_id (TodoCreate.title payload))),
         db', new_id, (new_todo_doc now new_id (TodoCreate.title payload)).
  split; [done|]. split; [|split; [|done]].
  - by rewrite serialize_new_todo_doc.
  - rewrite (find_one_eval _ new_id _ _ Hdocs'). by rewrite Hfind.
Qed.

Lemma create_returns_what_a_read_returns_witness :
  ∃ t db' oid d,
    create_todo 1700000000900 id2 {| TodoCreate.title := "Water plants" |}
      (store_of [milk]) = (Return t, db') ∧
    Bson.ObjectId_of_str (id t) = Return oid ∧
    find_one "todo" oid db' = (Return (Some d), db') ∧
    serialize_todo d = t.
Proof.
  apply (create_returns_what_a_read_returns 1700000000900 id2
           {| TodoCreate.title := "Water plants" |} (store_of [milk]) [milk]);
    reflexivity.
Defined.

(** ** Sorting *)

Section list_sort.
Context {A : Type} (key : A → pyval).


Lemma lt_Return_not_None a b r :
  Py.lt a b = Return r → a ≠ VNone ∧ b ≠ VNone.
Proof. destruct a, b; simpl; intros H; try done. Qed.


Lemma insort_Permutation x l l' :
  Py.insort key x l = Return l' → x :: l ≡ₚ l'.
Proof.
  revert l'. induction l as [|y l IH]; intros l'; simpl.
  - by intros [= <-].
  - destruct (Py.lt (key x) (key y)) as [e|[|]]; simpl; try done.
    + by intros [= <-].
    + destruct (Py.insort key x l) as [e|r]; simpl; [done|].
      intros [= <-]. rewrite <- (IH r eq_refl). apply perm_swap.
Qed.

Lemma insort_all_Permutation acc l s :
  Py.insort_all key acc l = Return s → (acc ++ l)%list ≡ₚ s.
Proof.
  revert acc. induction l as [|x l IH]; intros acc; simpl.
  - intros [= <-]. by rewrite app_nil_r.
  - destruct (Py.insort key x acc) as [e|acc'] eqn:E; simpl; [done|].
    intros H%IH. rewrite <- H. apply insort_Permutation in E.
    rewrite <- E. simpl. symmetry. apply Permutation_middle.
Qed.

Lemma list_sort_Permutation reverse l s :
  Py.list_sort key reverse l = Return s → l ≡ₚ s.
Proof.
  unfold Py.list_sort.
  destruct (Py.insort_all key [] (if reverse then rev l else l)) as [e|r] eqn:E;
    simpl; [done|].
  intros [= <-]. apply insort_all_Permutation in E. simpl in E.
  destruct reverse.
  - rewrite <- (Permutation_rev r), <- E. apply Permutation_rev.
  - done.
Qed.





(** A sort of two or more elements that returns has compared every
    key with another: none of them is None. *)
Lemma insort_Return_not_None x y l l' :
  Py.insort key x (y :: l) = Return l' → key x ≠ VNone ∧ key y ≠ VNone.
Proof.
  simpl. destruct (Py.lt (key x) (key y)) as [e|b] eqn:E; [done|].
  intros _. by eapply lt_Return_not_None.
Qed.

Lemma insort_all_Return_not_None acc l s :
  (2 ≤ length acc → Forall (λ y, key y ≠ VNone) acc)%nat →
  Py.insort_all key acc l = Return s →
  (2 ≤ length (acc ++ l) → Forall (λ y, key y ≠ VNone) (acc ++ l))%nat.
Proof.
  revert acc. induction l as [|x l IH]; intros acc Hacc; simpl.
  - intros _. by rewrite app_nil_r.
  - destruct (Py.insort key x acc) as [e|acc'] eqn:E; simpl; [done|].
    intros Hrun Hlen.
    pose proof (insort_Permutation _ _ _ E) as Hperm.
    assert (Hnext : (acc' ++ l)%list ≡ₚ (acc ++ x :: l)%list).
    { rewrite <- Hperm. simpl. apply Permutation_middle. }
    rewrite <- Hnext. apply (IH acc'); [|exact Hrun|by rewrite Hnext].
    intros Hlen'. rewrite <- Hperm.
    destruct acc as [|y acc].
    { apply Permutation_length in Hperm. simpl in Hperm. lia. }
    destruct (insort_Return_not_None _ _ _ _ E) as [Hx Hy].
    constructor; [done|].
    destruct acc as [|z acc]; [by repeat constructor|].
    apply Hacc. simpl. lia.
Qed.

Lemma list_sort_Return_not_None reverse l s :
  Py.list_sort key reverse l = Return s →
  (2 ≤ length l)%nat →
  Forall (λ y, key y ≠ VNone) l.
Proof.
  unfold Py.list_sort.
  destruct (Py.insort_all key [] (if reverse then rev l else l)) as [e|r] eqn:E;
    simpl; [done|].
  intros _ Hlen.
  pose proof (insort_all_Return_not_None [] _ _ ltac:(simpl; lia) E) as Hall.
  simpl in Hall. destruct reverse.
  - rewrite length_rev in Hall. specialize (Hall Hlen).
    apply Forall_rev in Hall. by rewrite rev_involutive in Hall.
  - by apply Hall.
Qed.

End list_sort.

(** ** List *)

Lemma list_todos_reachable db docs :
  todos db = Some docs →
  list_todos db
  = (match Py.list_sort (λ d : doc, Py.dict_get d "created_at") true docs with
     | Return s => Return (serialize_todo <$> s)
     | Raise e => Raise (HTTPException 500 (Py.str_exn e))
     end, db).
Proof.
  intros Hdocs. unfold list_todos, try_except, get_documents.
  rewrite (bind_Return _ _ _ _ _ (find_all_eval _ _ _ Hdocs)).
  unfold mbind at 1, M_bind, lift.
  by destruct (Py.list_sort _ true docs).
Qed.

Lemma list_todos_unreachable db :
  todos db = None →
  ∃ detail, list_todos db = (Raise (HTTPException 500 detail), db).
Proof.
  intros Hdocs. unfold list_todos, try_except, get_documents.
  destruct (on_server_unreachable not_subscriptable
              (λ colls, (Return (Mongo.get_collection "todo" colls), colls))
              "todo" db Hdocs) as [text Hrun].
  exists text.
  rewrite (bind_Raise _ _ _ _ _ Hrun). done.
Qed.


(** When two or more documents are stored and one of them has no
    [created_at] (or None for it), the listing answers 500. *)
Lemma list_todos_undated db docs :
  todos db = Some docs →
  (2 ≤ length docs)%nat →
  Exists (λ d : doc, Py.dict_get d "created_at" = VNone) docs →
  ∃ detail, GET_todos db = (internal_error detail, db).
Proof.
  intros Hdocs Hlen Hex.
  unfold GET_todos, FastAPI.route. rewrite (list_todos_reachable _ _ Hdocs).
  destruct (Py.list_sort _ true docs) as [e|s] eqn:Hsort.
  - by exists (Py.str_exn e).
  - apply list_sort_Return_not_None in Hsort; [|done].
    apply Exists_exists in Hex as (d & Hd & Hnone).
    rewrite Forall_forall in Hsort. by destruct (Hsort d Hd).
Qed.

(** C1: the listing does not order a document without created_at behind
    the others; it fails.  With the two documents [undated] and [milk]
    stored, the sort compares None with a datetime, the TypeError is caught
    and the request is answered with 500. *)
Theorem list_todos_fails_on_undated_document :
  GET_todos (store_of [undated; milk])
  = (internal_error
       "'<' not supported between instances of 'NoneType' and 'datetime.datetime'",
     store_of [undated; milk]).
Proof. reflexivity. Qed.

(** ** Every returned todo is a serialized document *)

Lemma bind_Return_inv {A B} (m : M A) (k : A → M B) db b db' :
  (m ≫= k) db = (Return b, db') →
  ∃ a db1, m db = (Return a, db1) ∧ k a db1 = (Return b, db').
Proof.
  unfold mbind, M_bind. destruct (m db) as [[e|a] db1]; [done|]. eauto.
Qed.

Lemma find_one_Return c oid db found db' :
  find_one c oid db = (Return found, db') →
  db' = db ∧ ∃ docs, documents c db = Some docs ∧ found = Mongo.find_first oid docs.
Proof.
  destruct (documents c db) as [docs|] eqn:Hdocs.
  - rewrite (find_one_eval _ oid _ _ Hdocs). intros [= <- <-]. eauto.
  - destruct (on_server_unreachable not_subscriptable
                (λ colls, (Return (Mongo.find_first oid (Mongo.get_collection c colls)),
                           colls)) c db Hdocs) as [text Hrun].
    unfold find_one. by rewrite Hrun.
Qed.

Lemma serialize_found_Return found db t db' :
  serialize_found found db = (Return t, db') →
  db' = db ∧ ∃ d, found = Some d ∧ t = serialize_todo d.
Proof. destruct found as [d|]; [|done]. intros [= <- <-]. eauto. Qed.

Lemma create_todo_Return now new_id payload db t db' :
  create_todo now new_id payload db = (Return t, db') →
  ∃ docs d, todos db' = Some docs ∧ d ∈ docs ∧ t = serialize_todo d.
Proof.
  unfold create_todo, try_except.
  destruct ((inserted_id ← create_document now new_id "todo"
                            (Todo.new (TodoCreate.title payload));
             oid ← lift (Bson.ObjectId_of_str inserted_id);
             found ← find_one "todo" oid; serialize_found found) db)
    as [[e|t0] db0] eqn:Hbody; [done|].
  intros [= <- <-].
  apply bind_Return_inv in Hbody as (inserted_id & db1 & _ & Hbody).
  apply bind_Return_inv in Hbody as (oid & db2 & _ & Hbody).
  apply bind_Return_inv in Hbody as (found & db3 & Hfind & Hser).
  apply find_one_Return in Hfind as (-> & docs & Hdocs & ->).
  apply serialize_found_Return in Hser as (-> & d & Hfound & ->).
  exists docs, d. split; [done|]. split; [|done].
  by apply find_first_elem in Hfound as [? _].
Qed.

Lemma list_todos_Return db l db' :
  list_todos db = (Return l, db') →
  db' = db ∧ ∃ docs s, todos db = Some docs ∧ docs ≡ₚ s ∧ l = serialize_todo <$> s.
Proof.
  destruct (todos db) as [docs|] eqn:Hdocs.
  - rewrite (list_todos_reachable _ _ Hdocs).
    destruct (Py.list_sort _ true docs) as [e|s] eqn:Hsort; [done|].
    intros [= <- <-]. split; [done|]. exists docs, s.
    split; [done|]. split; [|done]. by eapply list_sort_Permutation.
  - destruct (list_todos_unreachable _ Hdocs) as [detail ->]. done.
Qed.

(** C7: [serialize_todo] meets the serialization contract for every
    document (id: the string form of _id; title: as stored, "" if absent;
    completed: the stored flag, false if absent; created_at and updated_at:
    as stored, null if absent), and every todo that the list, create and
    update operations return is the serialization of a document of the
    collection. *)
Theorem returned_todos_meet_contract :
  (∀ d, serialization_contract d (serialize_todo d)) ∧
  (∀ db l db', list_todos db = (Return l, db') → Forall (returned_from db') l) ∧
  (∀ now new_id payload db t db',
     create_todo now new_id payload db = (Return t, db') → returned_from db' t) ∧
  (∀ now todo_id payload db t db',
     update_todo now todo_id payload db = (Return t, db') → returned_from db' t).
Proof.
  split; [exact serialize_todo_meets_contract|]. split; [|split].
  - intros db l db' (-> & docs & s & Hdocs & Hperm & ->)%list_todos_Return.
    apply Forall_fmap, Forall_forall. intros d Hd. exists docs, d.
    split; [done|]. split; [|apply serialize_todo_meets_contract].
    by rewrite Hperm.
  - intros now new_id payload db t db' (docs & d & Hdocs & Hd & ->)%create_todo_Return.
    exists docs, d. eauto using serialize_todo_meets_contract.
  - intros now todo_id payload db t db' H.
    destruct (update_todo_Return _ _ _ _ _ _ H)
      as (oid & before & d & after & _ & _ & _ & _ & _ & -> & Hdocs' & _).
    eexists _, _. split; [exact Hdocs'|]. split; [|apply serialize_todo_meets_contract].
    apply elem_of_app. right. left.
Qed.

(** * Further properties of the handlers *)

(** ** The outcomes of update and delete *)

Lemma nothing_to_update_dec payload :
  nothing_to_update payload ∨ ¬ nothing_to_update payload.
Proof.
  unfold nothing_to_update.
  destruct (carries_value (TodoUpdate.title payload)),
           (carries_value (TodoUpdate.completed payload));
    first [by left | right; by intros []].
Qed.

Lemma find_first_Some_split oid docs d :
  Mongo.find_first oid docs = Some d →
  ∃ before after,
    docs = (before ++ d :: after)%list ∧
    Forall (λ x, Mongo.matches_id oid x = false) before ∧
    Mongo.matches_id oid d = true.
Proof.
  induction docs as [|x docs IH]; simpl; [done|].
  destruct (Mongo.matches_id oid x) eqn:E.
  - intros [= ->]. by exists [], docs.
  - intros (before & after & -> & Hb & Hd)%IH.
    exists (x :: before), after. repeat split; try done. by constructor.
Qed.

(** The five ways an update ends, each with the condition that selects
    it. *)
Lemma update_todo_cases now todo_id payload db :
  (∃ e, Bson.ObjectId_of_str todo_id = Raise e ∧
        update_todo now todo_id payload db
        = (Raise (HTTPException 400 "Invalid ID"), db)) ∨
  (∃ oid, Bson.ObjectId_of_str todo_id = Return oid ∧
          nothing_to_update payload ∧
          update_todo now todo_id payload db
          = (Raise (HTTPException 400 "No fields to update"), db)) ∨
  (∃ oid text, Bson.ObjectId_of_str todo_id = Return oid ∧
               ¬ nothing_to_update payload ∧
               todos db = None ∧
               update_todo now todo_id payload db = (Raise (Exception text), db)) ∨
  (∃ oid docs, Bson.ObjectId_of_str todo_id = Return oid ∧
               ¬ nothing_to_update payload ∧
               todos db = Some docs ∧
               Mongo.find_first oid docs = None ∧
               update_todo now todo_id payload db
               = (Raise (HTTPException 404 "Todo not found"), db)) ∨
  (∃ oid before d after db',
     Bson.ObjectId_of_str todo_id = Return oid ∧
     ¬ nothing_to_update payload ∧
     todos db = Some (before ++ d :: after)%list ∧
     Mongo.find_first oid (before ++ d :: after) = Some d ∧
     update_todo now todo_id payload db
     = (Return (serialize_todo
                  (<["updated_at" := VDate now]> (update_fields payload) ∪ d)), db') ∧
     todos db'
     = Some (before ++
             (<["updated_at" := VDate now]> (update_fields payload) ∪ d) :: after)%list ∧
     ∀ c, c ≠ "todo" → documents c db' = documents c db).
Proof.
  destruct (Bson.ObjectId_of_str todo_id) as [e|oid] eqn:Hid.
  { left. exists e. split; [done|]. by eapply update_todo_invalid_id. }
  right. destruct (nothing_to_update_dec payload) as [Hnothing|Hsome].
  { left. exists oid. repeat split; try done; try apply Hnothing.
    by apply update_todo_no_fields with oid, update_fields_empty. }
  right. pose proof (update_fields_nonempty _ Hsome) as Hne.
  destruct (todos db) as [docs|] eqn:Hdocs.
  2:{ left. destruct (update_todo_unreachable now _ _ _ _ Hid Hne Hdocs) as [text Hrun].
      by exists oid, text. }
  right. destruct (Mongo.find_first oid docs) as [d|] eqn:Hfind.
  - right. destruct (find_first_Some_split _ _ _ Hfind) as (before & after & -> & Hb & Hd).
    destruct (update_todo_found now _ _ _ _ _ _ _ Hid Hne Hdocs Hb Hd)
      as (db' & Hrun & Hdocs' & Hframe).
    by exists oid, before, d, after, db'.
  - left. exists oid, docs. repeat split; try done; try apply Hsome.
    by apply update_todo_missing with oid docs.
Qed.

Lemma delete_todo_cases todo_id db :
  (∃ e, Bson.ObjectId_of_str todo_id = Raise e ∧
        delete_todo todo_id db = (Raise (HTTPException 400 "Invalid ID"), db)) ∨
  (∃ oid text, Bson.ObjectId_of_str todo_id = Return oid ∧
               todos db = None ∧
               delete_todo todo_id db = (Raise (Exception text), db)) ∨
  (∃ oid docs, Bson.ObjectId_of_str todo_id = Return oid ∧
               todos db = Some docs ∧
               Mongo.find_first oid docs = None ∧
               delete_todo todo_id db
               = (Raise (HTTPException 404 "Todo not found"), db)) ∨
  (∃ oid before d after db',
     Bson.ObjectId_of_str todo_id = Return oid ∧
     todos db = Some (before ++ d :: after)%list ∧
     Mongo.find_first oid (before ++ d :: after) = Some d ∧
     delete_todo todo_id db = (Return true, db') ∧
     todos db' = Some (before ++ after)%list ∧
     ∀ c, c ≠ "todo" → documents c db' = documents c db).
Proof.
  destruct (Bson.ObjectId_of_str todo_id) as [e|oid] eqn:Hid.
  { left. exists e. split; [done|]. by eapply delete_todo_invalid_id. }
  right. destruct (todos db) as [docs|] eqn:Hdocs.
  2:{ left. destruct (delete_todo_unreachable _ _ _ Hid Hdocs) as [text Hrun].
      by exists oid, text. }
  right. destruct (Mongo.find_first oid docs) as [d|] eqn:Hfind.
  - right. destruct (find_first_Some_delete _ _ _ Hfind) as [docs' Hdel].
    destruct (delete_first_Some _ _ _ Hdel) as (before & d0 & after & -> & Hb & Hd & ->).
    rewrite (find_first_middle _ _ _ _ Hb Hd) in Hfind. injection Hfind as ->.
    destruct (delete_todo_found _ _ _ _ _ Hid Hdocs Hdel) as (db' & Hrun & Hdocs' & Hframe).
    exists oid, before, d, after, db'. repeat split; try done.
    by apply find_first_middle.
  - left. exists oid, docs. repeat split; try done.
    by apply delete_todo_missing with oid docs.
Qed.

Lemma route_Raise_Exception {A} code (to_json : A → FastAPI.content) (h : M A)
    db text db' :
  h db = (Raise (Exception text), db') →
  FastAPI.route code to_json h db = (server_error, db').
Proof. intros H. unfold FastAPI.route. by rewrite H. Qed.

Lemma route_Return {A} code (to_json : A → FastAPI.content) (h : M A) db a db' :
  h db = (Return a, db') →
  FastAPI.route code to_json h db
  = ({| FastAPI.status := code;
        FastAPI.body := if FastAPI.is_body_allowed_for_status_code code
                        then Some (to_json a) else None |}, db').
Proof. intros H. unfold FastAPI.route. by rewrite H. Qed.


(** X2: The decision table of DELETE /api/todos/{id}. *)
Theorem DELETE_todo_decision_table todo_id db :
  (∃ e, Bson.ObjectId_of_str todo_id = Raise e ∧
        DELETE_todo todo_id db = (bad_request "Invalid ID", db)) ∨
  (∃ oid, Bson.ObjectId_of_str todo_id = Return oid ∧
          todos db = None ∧
          DELETE_todo todo_id db = (server_error, db)) ∨
  (∃ oid docs, Bson.ObjectId_of_str todo_id = Return oid ∧
               todos db = Some docs ∧
               Mongo.find_first oid docs = None ∧
               DELETE_todo todo_id db = (not_found "Todo not found", db)) ∨
  (∃ oid docs d db',
     Bson.ObjectId_of_str todo_id = Return oid ∧
     todos db = Some docs ∧
     Mongo.find_first oid docs = Some d ∧
     DELETE_todo todo_id db = (no_content, db') ∧
     S <$> (length <$> todos db') = Some (length docs)).
Proof.
  destruct (delete_todo_cases todo_id db)
    as [(e & Hid & H)|[(oid & text & Hid & Hdocs & H)
       |[(oid & docs & Hid & Hdocs & Hfind & H)
        |(oid & before & d & after & db' & Hid & Hdocs & Hfind & H & Hdocs' & _)]]].
  - left. exists e. split; [done|].
    unfold DELETE_todo. by rewrite (route_Raise_HTTP _ _ _ _ _ _ _ H).
  - right; left. exists oid. repeat split; try done.
    unfold DELETE_todo. by rewrite (route_Raise_Exception _ _ _ _ _ _ H).
  - right; right; left. exists oid, docs. repeat split; try done.
    unfold DELETE_todo. by rewrite (route_Raise_HTTP _ _ _ _ _ _ _ H).
  - right; right; right.
    exists oid, (before ++ d :: after)%list, d, db'. repeat split; try done.
    + unfold DELETE_todo. by rewrite (route_Return _ _ _ _ _ _ H).
    + rewrite Hdocs'. simpl. f_equal. rewrite !length_app. simpl. lia.
Qed.



(** ** The handlers that catch everything, and the routes that only read *)



Lemma list_todos_state db r db' : list_todos db = (r, db') → db' = db.
Proof.
  destruct (todos db) as [docs|] eqn:Hdocs.
  - rewrite (list_todos_reachable _ _ Hdocs). by intros [= _ <-].
  - destruct (list_todos_unreachable _ Hdocs) as [detail ->]. by intros [= _ <-].
Qed.

Lemma test_database_state env db r db' : test_database env db = (r, db') → db' = db.
Proof.
  destruct db as [[name [err|colls]]|]; by intros [= _ <-].
Qed.

(** X5: GET /, GET /api/todos and GET /test return the store as they were
    given it, in every store state. *)
Theorem read_routes_leave_store env db :
  snd (GET_root db) = db ∧ snd (GET_todos db) = db ∧ snd (GET_test env db) = db.
Proof.
  split; [done|]. split.
  - unfold GET_todos, FastAPI.route.
    destruct (list_todos db) as [r db'] eqn:H. simpl. by eapply list_todos_state.
  - unfold GET_test, FastAPI.route.
    destruct (test_database env db) as [r db'] eqn:H. simpl.
    by eapply test_database_state.
Qed.

(** X6: When the server cannot be reached, GET /api/todos answers 500 and the
    detail is the driver's error text, as it is. *)
Theorem list_todos_surfaces_store_error name err :
  GET_todos (Some {| Mongo.name := name; Mongo.srv := Mongo.Down err |})
  = (internal_error err,
     Some {| Mongo.name := name; Mongo.srv := Mongo.Down err |}).
Proof. reflexivity. Qed.

(** ** Unique identifiers *)

Lemma matches_id_lookup oid (d : doc) :
  Mongo.matches_id oid d = true ↔ d !! "_id" = Some (VOid oid).
Proof. unfold Mongo.matches_id. by rewrite bool_decide_eq_true. Qed.

Lemma no_match_not_elem oid docs :
  Forall (λ x, Mongo.matches_id oid x = false) docs →
  Some (VOid oid) ∉ (λ d : doc, d !! "_id") <$> docs.
Proof.
  intros Hall (d & Hd & Hin)%list_elem_of_fmap.
  rewrite Forall_forall in Hall. specialize (Hall d Hin).
  symmetry in Hd. apply matches_id_lookup in Hd. congruence.
Qed.

Lemma not_elem_no_match oid docs :
  Some (VOid oid) ∉ (λ d : doc, d !! "_id") <$> docs →
  Forall (λ x, Mongo.matches_id oid x = false) docs.
Proof.
  intros Hnot. apply Forall_forall. intros d Hd.
  destruct (Mongo.matches_id oid d) eqn:E; [|done].
  apply matches_id_lookup in E. destruct Hnot.
  apply list_elem_of_fmap. by exists d.
Qed.

Lemma no_match_find_first oid docs :
  Forall (λ x, Mongo.matches_id oid x = false) docs →
  Mongo.find_first oid docs = None.
Proof. induction 1 as [|x docs Hx _ IH]; simpl; [done|]. by rewrite Hx. Qed.

(** With unique identifiers, removing the document that matches leaves no
    document that matches. *)
Lemma unique_ids_delete oid before d after :
  unique_ids (before ++ d :: after) →
  Mongo.matches_id oid d = true →
  unique_ids (before ++ after) ∧ Mongo.find_first oid (before ++ after) = None.
Proof.
  unfold unique_ids. rewrite !fmap_app, fmap_cons.
  intros Hnodup Hd. apply matches_id_lookup in Hd. rewrite Hd in Hnodup.
  apply NoDup_app in Hnodup as (Hb & Hdisj & [Hd_after Ha]%NoDup_cons).
  split.
  - apply NoDup_app. split; [done|]. split; [|done].
    intros x Hx Hx'. apply (Hdisj x Hx). by right.
  - apply no_match_find_first, Forall_app. split; apply not_elem_no_match; [|done].
    intros Hin. apply (Hdisj _ Hin). left.
Qed.

Lemma unique_ids_update (fields : doc) before d after :
  fields !! "_id" = None →
  unique_ids (before ++ d :: after) →
  unique_ids (before ++ (fields ∪ d) :: after).
Proof.
  intros Hf. unfold unique_ids. rewrite !fmap_app, !fmap_cons.
  by rewrite (lookup_union_r fields d "_id" Hf).
Qed.

Lemma existsb_false_find_first oid docs :
  existsb (λ d', bool_decide (d' !! "_id" = Some (VOid oid))) docs = false →
  Mongo.find_first oid docs = None.
Proof.
  induction docs as [|x docs IH]; simpl; [done|].
  unfold Mongo.matches_id at 1.
  destruct (bool_decide (x !! "_id" = Some (VOid oid))); [done|]. exact IH.
Qed.

(** An insert either raises and changes nothing, or appends the document
    under an identifier no stored document has. *)
Lemma insert_one_state new_id c (d0 : doc) db docs r db' :
  documents c db = Some docs →
  d0 !! "_id" = None →
  insert_one new_id c d0 db = (r, db') →
  (db' = db ∧ ∃ text, r = Raise (Exception text)) ∨
  (r = Return (VOid new_id) ∧
   Mongo.find_first new_id docs = None ∧
   documents c db' = Some (docs ++ [<["_id" := VOid new_id]> d0])%list).
Proof.
  intros Hdocs Hid Hrun.
  destruct (existsb (λ d', bool_decide (d' !! "_id" = Some (VOid new_id))) docs)
    eqn:Hex.
  - left. destruct db as [[name [err|colls]]|]; simpl in Hdocs; try done.
    injection Hdocs as <-. unfold insert_one, on_server in Hrun. simpl in Hrun.
    rewrite Hid in Hrun. unfold Py.dict_get in Hrun.
    rewrite lookup_insert_eq in Hrun. simpl in Hrun. rewrite Hex in Hrun.
    injection Hrun as <- <-. eauto.
  - right. apply existsb_false_find_first in Hex.
    destruct (insert_one_fresh new_id c d0 db docs Hdocs Hid Hex)
      as (db1 & Hrun1 & Hdocs1 & _).
    rewrite Hrun1 in Hrun. by injection Hrun as <- <-.
Qed.

Lemma create_todo_state now new_id payload db docs r db' :
  todos db = Some docs →
  create_todo now new_id payload db = (r, db') →
  todos db' = Some docs ∨
  (Mongo.find_first new_id docs = None ∧
   todos db'
   = Some (docs ++ [new_todo_doc now new_id (TodoCreate.title payload)])%list).
Proof.
  intros Hdocs Hrun. unfold create_todo, try_except, create_document in Hrun.
  destruct (insert_one new_id "todo"
              (<["created_at" := VDate now]>
                 (Todo.model_dump (Todo.new (TodoCreate.title payload)))) db)
    as [r1 db1] eqn:Hins.
  assert (Hnoid : (<["created_at" := VDate now]>
                     (Todo.model_dump (Todo.new (TodoCreate.title payload))) : doc)
                  !! "_id" = None) by done.
  destruct (insert_one_state _ _ _ _ _ _ _ Hdocs Hnoid Hins)
    as [(-> & text & ->)|(-> & Hfresh & Hdocs1)].
  - left. rewrite (bind_Raise _ _ _ _ _ (bind_Raise _ _ _ _ _ Hins)) in Hrun.
    unfold raise in Hrun. by injection Hrun as _ <-.
  - right. split; [done|]. rewrite inserted_doc_is_new_todo_doc in Hdocs1.
    rewrite (bind_Return _ _ _ _ _ (bind_Return _ _ _ _ _ Hins)) in Hrun.
    simpl in Hrun. unfold mret, M_ret, mbind, M_bind, lift in Hrun.
    destruct (Bson.ObjectId_of_str (hex new_id)) as [e|oid].
    { unfold raise in Hrun. by injection Hrun as _ <-. }
    rewrite (find_one_eval _ oid _ _ Hdocs1) in Hrun.
    destruct (Mongo.find_first oid _) as [d|]; simpl in Hrun;
      unfold raise in Hrun; by injection Hrun as _ <-.
Qed.

Lemma unique_ids_append docs (d : doc) oid :
  unique_ids docs →
  Mongo.find_first oid docs = None →
  d !! "_id" = Some (VOid oid) →
  unique_ids (docs ++ [d]).
Proof.
  unfold unique_ids. intros Hnodup Hfresh Hd. rewrite fmap_app. simpl.
  apply NoDup_app. split; [done|]. split; [|apply NoDup_singleton].
  intros x Hx Hx'. apply list_elem_of_singleton in Hx' as ->. rewrite Hd in Hx.
  by apply (no_match_not_elem oid docs); [apply find_first_None_Forall|].
Qed.

(** X7: Every handler keeps the identifiers of the todo collection unique and
    the collection reachable, whether it returns or raises: a create adds
    at most one document, under an identifier that was not there; an update
    does not touch [_id]; a delete only removes. *)
Theorem handlers_keep_unique_ids :
  keeps_unique_ids list_todos ∧
  (∀ now new_id payload, keeps_unique_ids (create_todo now new_id payload)) ∧
  (∀ now todo_id payload, keeps_unique_ids (update_todo now todo_id payload)) ∧
  (∀ todo_id, keeps_unique_ids (delete_todo todo_id)) ∧
  (∀ env, keeps_unique_ids (test_database env)).
Proof.
  split; [|split; [|split; [|split]]].
  - intros db docs r db' Hdocs Huniq ->%list_todos_state. eauto.
  - intros now new_id payload db docs r db' Hdocs Huniq Hrun.
    destruct (create_todo_state _ _ _ _ _ _ _ Hdocs Hrun) as [Hsame|[Hfresh Hnew]];
      [eauto|].
    eexists. split; [exact Hnew|].
    apply unique_ids_append with new_id; [done|done|].
    unfold new_todo_doc. by rewrite lookup_insert_eq.
  - intros now todo_id payload db docs r db' Hdocs Huniq Hrun.
    destruct (update_todo_cases now todo_id payload db)
      as [(? & _ & H)|[(? & _ & _ & H)|[(? & ? & _ & _ & _ & H)
         |[(? & ? & _ & _ & _ & _ & H)
          |(oid & before & d & after & db1 & _ & _ & Hdocs0 & _ & H & Hdocs1 & _)]]]];
      rewrite H in Hrun; injection Hrun as _ <-; eauto.
    rewrite Hdocs in Hdocs0. injection Hdocs0 as ->.
    eexists. split; [exact Hdocs1|].
    by apply unique_ids_update; [apply stamped_fields_lookup_id|].
  - intros todo_id db docs r db' Hdocs Huniq Hrun.
    destruct (delete_todo_cases todo_id db)
      as [(? & _ & H)|[(? & ? & _ & _ & H)|[(? & ? & _ & _ & _ & H)
         |(oid & before & d & after & db1 & _ & Hdocs0 & Hfind & H & Hdocs1 & _)]]];
      rewrite H in Hrun; injection Hrun as _ <-; eauto.
    rewrite Hdocs in Hdocs0. injection Hdocs0 as ->.
    eexists. split; [exact Hdocs1|].
    apply find_first_elem in Hfind as [_ Hd].
    by destruct (unique_ids_delete oid before d after Huniq Hd).
  - intros env db docs r db' Hdocs Huniq ->%test_database_state. eauto.
Qed.

(** X8: With unique identifiers, a deleted todo is gone: after a delete that
    succeeded, a second delete with the same identifier, and an update with
    it that carries a value, are answered with 404. *)
Theorem deleted_todo_is_gone now todo_id payload db docs ok db' :
  todos db = Some docs →
  unique_ids docs →
  delete_todo todo_id db = (Return ok, db') →
  DELETE_todo todo_id db' = (not_found "Todo not found", db') ∧
  (¬ nothing_to_update payload →
   PATCH_todo now todo_id payload db' = (not_found "Todo not found", db')).
Proof.
  intros Hdocs Huniq Hrun.
  destruct (delete_todo_Return _ _ _ _ Hrun)
    as (oid & docs0 & docs' & Hid & Hdocs0 & Hdel & Hdocs' & _ & _).
  rewrite Hdocs in Hdocs0. injection Hdocs0 as <-.
  destruct (delete_first_Some _ _ _ Hdel) as (before & d & after & -> & Hb & Hd & ->).
  destruct (unique_ids_delete oid before d after Huniq Hd) as [_ Hgone].
  split.
  - unfold DELETE_todo.
    by rewrite (route_Raise_HTTP _ _ _ _ _ _ _
                  (delete_todo_missing _ _ _ _ Hid Hdocs' Hgone)).
  - intros Hne%update_fields_nonempty. unfold PATCH_todo.
    by rewrite (route_Raise_HTTP _ _ _ _ _ _ _
                  (update_todo_missing now _ _ _ _ _ Hid Hne Hdocs' Hgone)).
Qed.

Lemma deleted_todo_is_gone_witness :
  DELETE_todo "65f0a1b2c3d4e5f601234501" (store_of [undated])
  = (not_found "Todo not found", store_of [undated]) ∧
  PATCH_todo 1700000000500 "65f0a1b2c3d4e5f601234501" complete_it (store_of [undated])
  = (not_found "Todo not found", store_of [undated]).
Proof.
  destruct (deleted_todo_is_gone 1700000000500 "65f0a1b2c3d4e5f601234501"
              complete_it (store_of [undated; milk]) [undated; milk] true
              (store_of [undated])) as [Hdelete Hupdate].
  - reflexivity.
  - unfold unique_ids. apply (bool_decide_unpack _). vm_compute. exact I.
  - reflexivity.
  - split; [exact Hdelete|]. apply Hupdate. by intros [_ ?].
Defined.

(** ** The order of the listing *)

Section list_sort_stable.
Context {A : Type} (key : A → pyval).








End list_sort_stable.






(** X11: With two or more documents stored, of which one has no [created_at]
    (or None for it), GET /api/todos answers 500, whatever the others
    hold. *)
Theorem listing_with_undated_fails db docs :
  todos db = Some docs →
  (2 ≤ length docs)%nat →
  Exists (λ d : doc, Py.dict_get d "created_at" = VNone) docs →
  ∃ detail, GET_todos db = (internal_error detail, db).
Proof. apply list_todos_undated. Qed.

Lemma listing_with_undated_fails_witness :
  ∃ detail,
    GET_todos (store_of [milk; undated; bread])
    = (internal_error detail, store_of [milk; undated; bread]).
Proof.
  apply (listing_with_undated_fails (store_of [milk; undated; bread])
           [milk; undated; bread]).
  - reflexivity.
  - simpl. lia.
  - apply Exists_cons_tl, Exists_cons_hd. reflexivity.
Defined.

(** ** Create, then list or delete *)




Lemma delete_first_append oid docs (d : doc) :
  Mongo.find_first oid docs = None →
  Mongo.matches_id oid d = true →
  Mongo.delete_first oid (docs ++ [d]) = Some docs.
Proof.
  induction docs as [|x docs IH]; simpl; intros Hnone Hd.
  - by rewrite Hd.
  - destruct (Mongo.matches_id oid x); [done|]. by rewrite IH.
Qed.

(** X13: Deleting a todo by the id its creation returned puts the collection
    back as it was before the creation.  ([create_document] is the
    adapter's, modelled as above.) *)
Theorem create_then_delete_restores now new_id payload db docs :
  todos db = Some docs →
  well_formed new_id →
  Mongo.find_first new_id docs = None →
  ∃ t db' db'',
    create_todo now new_id payload db = (Return t, db') ∧
    DELETE_todo (id t) db' = (no_content, db'') ∧
    todos db'' = Some docs.
Proof.
  intros Hdocs Hwf Hfresh.
  destruct (create_todo_fresh now new_id payload db docs Hdocs Hwf Hfresh)
    as (db' & Hrun & Hdocs' & _ & _).
  set (d := new_todo_doc now new_id (TodoCreate.title payload)) in *.
  assert (Hid : Bson.ObjectId_of_str (id (serialize_todo d)) = Return new_id).
  { unfold d. by rewrite serialize_new_todo_doc. }
  assert (Hdel : Mongo.delete_first new_id (docs ++ [d]) = Some docs).
  { apply delete_first_append; [done|].
    apply matches_id_lookup. unfold d, new_todo_doc. by rewrite lookup_insert_eq. }
  destruct (delete_todo_found _ _ _ _ _ Hid Hdocs' Hdel) as (db'' & Hrun' & Hdocs'' & _).
  exists (serialize_todo d), db', db''. split; [done|]. split; [|done].
  unfold DELETE_todo. by rewrite (route_Return _ _ _ _ _ _ Hrun').
Qed.

Lemma create_then_delete_restores_witness :
  ∃ t db' db'',
    create_todo 1700000000900 id2 {| TodoCreate.title := "Water plants" |}
      (store_of [milk]) = (Return t, db') ∧
    DELETE_todo (id t) db' = (no_content, db'') ∧
    todos db'' = Some [milk].
Proof.
  apply (create_then_delete_restores 1700000000900 id2
           {| TodoCreate.title := "Water plants" |} (store_of [milk]) [milk]);
    reflexivity.
Defined.

(** ** Serialization and diagnostics *)

(** X14: A field under any other key than the five [serialize_todo] reads does
    not reach the response: setting or removing it changes nothing. *)
Theorem serialize_todo_reads_five_keys (d : doc) k v :
  k ∉ serialized_keys →
  serialize_todo (<[k := v]> d) = serialize_todo d ∧
  serialize_todo (delete k d) = serialize_todo d.
Proof.
  intros Hk. unfold serialized_keys in Hk.
  assert (k ≠ "_id" ∧ k ≠ "title" ∧ k ≠ "completed" ∧ k ≠ "created_at" ∧
          k ≠ "updated_at") as (H1 & H2 & H3 & H4 & H5).
  { repeat split; intros ->; apply Hk; repeat constructor. }
  unfold serialize_todo, Py.dict_get, Py.dict_get_default.
  split.
  - by rewrite !lookup_insert_ne.
  - by rewrite !lookup_delete_ne.
Qed.

Lemma serialize_todo_reads_five_keys_witness :
  serialize_todo tagged = serialize_todo milk.
Proof.
  apply (serialize_todo_reads_five_keys milk "owner" (VStr "ann")).
  apply (bool_decide_unpack _). vm_compute. exact I.
Defined.

(** X15: The diagnostic payload: [connection_status] says "Connected" exactly
    when a handle exists, also when its server cannot be reached;
    [collections] holds the first ten collection names of a working server
    and nothing otherwise; the error text of the [database] field is cut to
    fifty characters. *)
Theorem test_database_payload env db :
  ∃ r, test_database env db = (Return r, db) ∧
       (connection_status r = "Connected" ↔ is_Some db) ∧
       (connection_status r = "Not Connected" ↔ db = None) ∧
       (length (collections r) ≤ 10)%nat ∧
       collections r =
         match db with
         | Some {| Mongo.srv := Mongo.Up colls |} => take 10 (fst <$> colls)
         | _ => []
         end ∧
       (∀ name err, db = Some {| Mongo.name := name; Mongo.srv := Mongo.Down err |} →
          ∃ shown, database r = "⚠️  Connected but Error: " +:+ shown ∧
                   (String.length shown ≤ 50)%nat ∧
                   String.prefix shown err = true).
Proof.
  assert (Hcut : ∀ n s, (String.length (Py.str_take n s) ≤ n)%nat ∧
                        String.prefix (Py.str_take n s) s = true).
  { induction n as [|n IH]; intros [|c s]; simpl; try (split; [lia|done]).
    destruct (IH s) as [Hlen Hpre]. split; [lia|].
    destruct (Ascii.ascii_dec c c); [done|congruence]. }
  destruct db as [[name [err|colls]]|].
  - eexists. split; [reflexivity|]. cbn -[Py.str_take].
    repeat split; try done; try lia.
    intros name' err' [= <- <-]. exists (Py.str_take 50 err).
    split; [done|]. apply Hcut.
  - eexists. split; [reflexivity|]. cbn -[take].
    repeat split; try done.
    rewrite length_take. lia.
  - eexists. split; [reflexivity|]. cbn.
    repeat split; try done; try lia.
Qed.

(** ** More on update *)

Lemma union_twice (fields d : doc) : fields ∪ (fields ∪ d) = fields ∪ d.
Proof.
  apply map_eq. intros k. rewrite !lookup_union.
  by destruct (fields !! k), (d !! k).
Qed.

(** X16: An update that succeeded can be sent again: with the same body and at
    the same instant it succeeds again, returns the same todo and leaves
    the collection as the first one left it. *)
Theorem update_is_idempotent now todo_id payload db t db' :
  update_todo now todo_id payload db = (Return t, db') →
  ∃ db'', update_todo now todo_id payload db' = (Return t, db'') ∧
          todos db'' = todos db'.
Proof.
  intros H.
  destruct (update_todo_Return _ _ _ _ _ _ H)
    as (oid & before & d & after & Hid & Hne & Hdocs & Hb & Hd & -> & Hdocs' & _).
  set (fields := <["updated_at" := VDate now]> (update_fields payload)) in *.
  assert (Hd' : Mongo.matches_id oid (fields ∪ d) = true).
  { by rewrite matches_id_union by apply stamped_fields_lookup_id. }
  destruct (update_todo_found now _ _ _ _ _ _ _ Hid Hne Hdocs' Hb Hd')
    as (db'' & Hrun & Hdocs'' & _).
  fold fields in Hrun, Hdocs''. rewrite union_twice in Hrun, Hdocs''.
  exists db''. split; [done|]. by rewrite Hdocs', Hdocs''.
Qed.

Lemma update_is_idempotent_witness :
  ∃ db'',
    update_todo 1700000000500 "65f0a1b2c3d4e5f601234501" complete_it
      (store_of [undated;
                 <["completed" := VBool true]>
                   (<["updated_at" := VDate 1700000000500]> milk)])
    = (Return {| id := "65f0a1b2c3d4e5f601234501";
                 title := VStr "Buy milk";
                 completed := true;
                 created_at := VDate 1700000000000;
                 updated_at := VDate 1700000000500 |}, db'') ∧
    todos db''
    = todos (store_of [undated;
                       <["completed" := VBool true]>
                         (<["updated_at" := VDate 1700000000500]> milk)]).
Proof.
  apply (update_is_idempotent 1700000000500 "65f0a1b2c3d4e5f601234501" complete_it
           (store_of [undated; milk])).
  reflexivity.
Defined.

(** X17: What an update sends to the store under [$set]: [updated_at], and
    [title] and [completed] when the request carries a value for them;
    never another key (not [_id], not [created_at]) and never a null. *)
Theorem update_sets_only_its_fields now payload k v :
  (<["updated_at" := VDate now]> (update_fields payload) : doc) !! k = Some v →
  (k = "updated_at" ∧ v = VDate now) ∨
  (k = "title" ∧ ∃ s, TodoUpdate.title payload = Supplied (Some s) ∧ v = VStr s) ∨
  (k = "completed" ∧
   ∃ b, TodoUpdate.completed payload = Supplied (Some b) ∧ v = VBool b).
Proof.
  destruct (decide (k = "updated_at")) as [->|Hk].
  - rewrite lookup_insert_eq. intros [= <-]. by left.
  - rewrite lookup_insert_ne by done. intros H. right.
    by apply update_fields_lookup.
Qed.

Lemma update_sets_only_its_fields_witness :
  (("completed" : string) = "updated_at" ∧ VBool true = VDate 1700000000500) ∨
  (("completed" : string) = "title" ∧
   ∃ s, TodoUpdate.title complete_it = Supplied (Some s) ∧ VBool true = VStr s) ∨
  (("completed" : string) = "completed" ∧
   ∃ b, TodoUpdate.completed complete_it = Supplied (Some b) ∧ VBool true = VBool b).
Proof.
  apply (update_sets_only_its_fields 1700000000500 complete_it "completed" (VBool true)).
  reflexivity.
Defined.
